(** * ca.py — the network troubleshooter: a shallow embedding

    The Python program [src/ca/ca.py] talks to the outside world through a
    handful of library calls ([socket], [scapy], [dns.resolver],
    [requests]).  Those calls are the only source of non-determinism, so the
    embedding threads an explicit machine state through every function and
    takes the library calls as a record of oracles over an abstract world.
    Every oracle may change the world and may raise, exactly like the Python
    call it stands for; the program's own [try]/[except] clauses are modelled
    by handlers that look at the class of the exception. *)

From Stdlib Require Import String Ascii List ZArith QArith Bool Lia.
Import ListNotations.
Local Open Scope string_scope.
Local Open Scope list_scope.

(* ------------------------------------------------------------------ *)
(** ** Exceptions and results *)

(** The exception classes the handlers of [ca.py] distinguish.  Every
    constructor carries [str(e)].  [OSError] stands for an instance of
    [OSError] that is not a [PermissionError]; [Exception] for an instance of
    any other subclass of [Exception] ([ValueError], [AttributeError],
    [requests.HTTPError], ...).  [KeyboardInterrupt] is not an [Exception]
    and is handled by the script's entry point only; it is outside the model. *)
Inductive exn : Type :=
| PermissionError (msg : string)
| OSError (msg : string)
| Exception (cls msg : string).

(** [isinstance(e, OSError)]: [PermissionError] is a subclass of [OSError]. *)
Definition isinstance_OSError (e : exn) : bool :=
  match e with
  | PermissionError _ | OSError _ => true
  | Exception _ _ => false
  end.

Definition isinstance_PermissionError (e : exn) : bool :=
  match e with
  | PermissionError _ => true
  | _ => false
  end.

(** [str(e)] *)
Definition str_exn (e : exn) : string :=
  match e with
  | PermissionError m | OSError m | Exception _ m => m
  end.

Inductive result (A : Type) : Type :=
| Ret (a : A)
| Raise (e : exn).
Arguments Ret {A} a.
Arguments Raise {A} e.

Definition returns {A} (r : result A) : bool :=
  match r with Ret _ => true | Raise _ => false end.

(* ------------------------------------------------------------------ *)
(** ** Strings *)

(** Python's [needle in hay] on strings. *)
Fixpoint contains (needle hay : string) : bool :=
  if String.prefix needle hay then true
  else match hay with
       | EmptyString => false
       | String _ rest => contains needle rest
       end.

(** A string of the model is a sequence of code points below 256.  The
    white space [str.strip()] removes among them is what [str.isspace] takes
    for white space: TAB, LF, VT, FF, CR (9-13), FS, GS, RS, US and the space
    (28-32), NEL (133) and the no-break space (160). *)
Definition isspace (c : ascii) : bool :=
  let n := nat_of_ascii c in
  ((9 <=? n) && (n <=? 13) || (28 <=? n) && (n <=? 32)
   || (n =? 133) || (n =? 160))%nat.

Fixpoint lstrip (s : string) : string :=
  match s with
  | EmptyString => EmptyString
  | String c rest => if isspace c then lstrip rest else s
  end.

Fixpoint rstrip (s : string) : string :=
  match s with
  | EmptyString => EmptyString
  | String c rest =>
      match rstrip rest with
      | EmptyString => if isspace c then EmptyString else String c EmptyString
      | r => String c r
      end
  end.

Definition strip (s : string) : string := rstrip (lstrip s).

(** Truth value of a string: the empty string is false. *)
Definition truthy_str (s : string) : bool :=
  match s with EmptyString => false | _ => true end.

(** Truth value of an [Optional[str]]: [None] and the empty string are
    false; [Some s] is the string when it is true. *)
Definition truthy_opt (o : option string) : option string :=
  match o with
  | Some s => if truthy_str s then Some s else None
  | None => None
  end.

(* ------------------------------------------------------------------ *)
(** ** Packets, as much of scapy's as the program looks at *)

Inductive Layer : Type :=
| IP (dst : string)
| IPv6 (dst : string)
| ICMP (type : Z)
| ICMPv6EchoRequest
| ICMPv6EchoReply
| OtherLayer (name : string).

(** A packet is the stack of its layers, outermost first: [a / b] is
    [[a; b]]. *)
Definition Packet := list Layer.

Definition is_ICMP (l : Layer) : bool :=
  match l with ICMP _ => true | _ => false end.

Definition is_ICMPv6EchoReply (l : Layer) : bool :=
  match l with ICMPv6EchoReply => true | _ => false end.

Definition haslayer (cls : Layer -> bool) (p : Packet) : bool := existsb cls p.
Definition getlayer (cls : Layer -> bool) (p : Packet) : option Layer := find cls p.

(** [ICMP()] has scapy's default type, 8 (echo-request). *)
Definition ICMP_default : Layer := ICMP 8.

(** [int(ans.getlayer(ICMP).type)] *)
Definition icmp_type (ans : Packet) : result Z :=
  match getlayer is_ICMP ans with
  | Some (ICMP t) => Ret t
  | _ => Raise (Exception "AttributeError" "'NoneType' object has no attribute 'type'")
  end.

(* ------------------------------------------------------------------ *)
(** ** HTTP responses and JSON values, as much as [get_public_ip] uses *)

#[local] Unset Elimination Schemes.
Inductive Json : Type :=
| JNull
| JBool (b : bool)
| JNum (z : Z)
| JStr (s : string)
| JList (l : list Json)
| JDict (items : list (string * Json)).
#[local] Set Elimination Schemes.

Record Response : Type := mkResponse {
  status_code : Z;
  text : string;              (* r.text *)
  json : result Json          (* r.json(): the decoded body, or the decoder's exception *)
}.

(** [r.raise_for_status()]: 4xx and 5xx raise [HTTPError]. *)
Definition raise_for_status (r : Response) : result unit :=
  if (400 <=? status_code r)%Z && (status_code r <? 600)%Z
  then Raise (Exception "HTTPError" "bad status")
  else Ret tt.

Fixpoint assoc (k : string) (items : list (string * Json)) : option Json :=
  match items with
  | [] => None
  | (k', v) :: rest => if String.eqb k k' then Some v else assoc k rest
  end.

(** [data.get(key)]: only a dict has [get]; a missing key gives [None]. *)
Definition json_get (data : Json) (key : string) : result Json :=
  match data with
  | JDict items => Ret (match assoc key items with Some v => v | None => JNull end)
  | _ => Raise (Exception "AttributeError" "object has no attribute 'get'")
  end.

(** Truth value of a decoded JSON value, as [if ip:] tests it. *)
Definition truthy (v : Json) : bool :=
  match v with
  | JNull => false
  | JBool b => b
  | JNum z => negb (z =? 0)%Z
  | JStr s => truthy_str s
  | JList l => match l with [] => false | _ => true end
  | JDict d => match d with [] => false | _ => true end
  end.

(** [ip.strip()]: only a string has [strip]. *)
Definition json_strip (v : Json) : result string :=
  match v with
  | JStr s => Ret (strip s)
  | _ => Raise (Exception "AttributeError" "object has no attribute 'strip'")
  end.

(* ------------------------------------------------------------------ *)
(** ** The machine state *)

(** The library calls the program makes, with their arguments. *)
Inductive Call : Type :=
| call_inet_aton (s : string)
| call_inet_pton6 (s : string)
| call_gethostbyname (s : string)
| call_sr1 (pkt : Packet) (timeout : Q)
| call_udp_sockname (ip : string) (port : Z)
| call_nameservers
| call_requests_get (url : string) (timeout : Q).

Definition is_sr1 (c : Call) : bool :=
  match c with call_sr1 _ _ => true | _ => false end.

Definition is_requests_get (c : Call) : bool :=
  match c with call_requests_get _ _ => true | _ => false end.

Definition is_udp_sockname (c : Call) : bool :=
  match c with call_udp_sockname _ _ => true | _ => false end.

Definition is_nameservers (c : Call) : bool :=
  match c with call_nameservers => true | _ => false end.

Definition is_resolution (c : Call) : bool :=
  match c with
  | call_inet_aton _ | call_inet_pton6 _ | call_gethostbyname _ => true
  | _ => false
  end.

Section Program.

(** The outside world: whatever the library calls read and change. *)
Context {W : Type}.

(** The collaborators of the program.  The three flags are the module-level
    globals set by the guarded imports; the rest are the library calls. *)
Record Host : Type := mkHost {
  SCAPY_AVAILABLE : bool;
  DNSPYTHON_AVAILABLE : bool;
  REQUESTS_AVAILABLE : bool;
  (* socket.inet_aton(s) *)
  inet_aton : string -> W -> result unit * W;
  (* socket.inet_pton(socket.AF_INET6, s) *)
  inet_pton6 : string -> W -> result unit * W;
  (* socket.gethostbyname(s) *)
  gethostbyname : string -> W -> result string * W;
  (* scapy's constructors: IPv6(dst=ip) / ICMPv6EchoRequest() and
     IP(dst=ip) / ICMP() build the packet given, or raise *)
  scapy_build : Packet -> W -> result unit * W;
  (* scapy's sr1(pkt, timeout=t): the first answer, or None *)
  sr1 : Packet -> Q -> W -> result (option Packet) * W;
  (* a UDP socket connected to (ip, port); getsockname()[0]; close() *)
  udp_sockname : string -> Z -> W -> result string * W;
  (* [str(ns) for ns in dns.resolver.Resolver().nameservers] *)
  nameservers : W -> result (list string) * W;
  (* requests.get(url, timeout=t) *)
  requests_get : string -> Q -> W -> result Response * W
}.

(** [calls] is the log of the library calls that go to the system or to the
    network (building a packet object is not one of them), oldest first;
    [probes] the log of the arguments [scapy_ping_once] was entered with;
    [stdout] the lines printed.  The logs are ghost state: no function reads
    them. *)
Record State : Type := mkState {
  world : W;
  calls : list Call;
  probes : list string;
  stdout : list string
}.

Definition M (A : Type) : Type := State -> result A * State.

Definition ret {A} (a : A) : M A := fun s => (Ret a, s).

Definition raise {A} (e : exn) : M A := fun s => (Raise e, s).

Definition bind {A B} (m : M A) (k : A -> M B) : M B :=
  fun s => match m s with
           | (Ret a, s') => k a s'
           | (Raise e, s') => (Raise e, s')
           end.

(** [try: m  except <cls>: h]: the handler runs in the state the body left. *)
Definition try_except {A} (m : M A) (cls : exn -> bool) (h : exn -> M A) : M A :=
  fun s => match m s with
           | (Ret a, s') => (Ret a, s')
           | (Raise e, s') => if cls e then h e s' else (Raise e, s')
           end.

Definition lift {A} (r : result A) : M A := fun s => (r, s).

End Program.

Arguments Host W : clear implicits.
Arguments State W : clear implicits.
Arguments M W A : clear implicits.

Declare Scope prog_scope.
Delimit Scope prog_scope with prog.
Notation "x <- m ;; k" := (bind m (fun x => k))
  (at level 61, m at next level, right associativity) : prog_scope.
Notation "m ;;; k" := (bind m (fun _ => k))
  (at level 61, right associativity) : prog_scope.
Notation "'TRY' m 'EXCEPT' cls 'AS' e 'THEN' h" := (try_except m cls (fun e => h))
  (at level 10, m at level 100, h at level 200, e name) : prog_scope.

Definition any_Exception (e : exn) : bool := true.

(* ------------------------------------------------------------------ *)
(** ** The program *)

(** The status strings [scapy_ping_once] returns. *)
Inductive Status : Type := OK | FAILED | NO_SCAPY | NO_PERM | RESOLVE_FAIL | ERROR.

Definition status_str (st : Status) : string :=
  match st with
  | OK => "OK"
  | FAILED => "FAILED"
  | NO_SCAPY => "NO_SCAPY"
  | NO_PERM => "NO_PERM"
  | RESOLVE_FAIL => "RESOLVE_FAIL"
  | ERROR => "ERROR"
  end.

(** The namespace [parse_args] returns; [ping] is [None] when no [-p] was given. *)
Record Args : Type := mkArgs {
  no_ping : bool;
  quiet : bool;
  ping : option (list string)
}.

Definition WELCOME : string := "Welcome to the python network troubleshooter!".

Definition public_dns : string := "8.8.8.8".

(** The default of [scapy_ping_once]'s and of [get_public_ip]'s [timeout]. *)
Definition ping_timeout : Q := 1.
Definition http_timeout : Q := 3.

Definition endpoints : list (string * string) :=
  [ ("https://api.ipify.org?format=json", "json");
    ("https://api64.ipify.org?format=json", "json");
    ("https://ifconfig.me/ip", "text") ].

Section Code.

Context {W : Type} (host : Host W).
Local Open Scope prog_scope.

#[local] Abbreviation Prog := (M W).

(** A library call: the oracle runs on the world and the call is logged. *)
Definition extern {A} (c : Call) (f : W -> result A * W) : Prog A :=
  fun s => let (r, w) := f (world s) in
           (r, mkState w (calls s ++ [c]) (probes s) (stdout s)).

(** [print(line)].  The console is outside the program modelled: a line
    printed is recorded and [print] returns. *)
Definition print (line : string) : Prog unit :=
  fun s => (Ret tt, mkState (world s) (calls s) (probes s) (stdout s ++ [line])).

(** Ghost: note that [scapy_ping_once dst] was entered. *)
Definition enter_probe (dst : string) : Prog unit :=
  fun s => (Ret tt, mkState (world s) (calls s) (probes s ++ [dst]) (stdout s)).

(** *** Task 2: network information *)

Definition get_local_ip (target_ip : string) (target_port : Z) : Prog (option string) :=
  TRY (ip <- extern (call_udp_sockname target_ip target_port)
                    (udp_sockname host target_ip target_port);;
       ret (Some ip))
  EXCEPT any_Exception AS e THEN ret None.

Definition get_dns_servers : Prog (list string) :=
  if negb (DNSPYTHON_AVAILABLE host) then ret []
  else TRY extern call_nameservers (nameservers host)
       EXCEPT any_Exception AS e THEN ret [].

(** The body of the loop of [get_public_ip], without its [try]: [Some v] is
    [return v], [None] is falling off the end of the body. *)
Definition query_endpoint (url kind : string) (timeout : Q) : Prog (option string) :=
  r <- extern (call_requests_get url timeout) (requests_get host url timeout);;
  lift (raise_for_status r);;;
  if String.eqb kind "json" then
    data <- lift (json r);;
    ip <- lift (json_get data "ip");;
    if truthy ip then
      v <- lift (json_strip ip);; ret (Some v)
    else ret None
  else ret (Some (strip (text r))).

Fixpoint for_endpoints (eps : list (string * string)) (timeout : Q) : Prog (option string) :=
  match eps with
  | [] => ret None
  | (url, kind) :: rest =>
      r <- (TRY query_endpoint url kind timeout
            EXCEPT any_Exception AS e THEN ret None);;
      match r with
      | Some v => ret (Some v)
      | None => for_endpoints rest timeout
      end
  end.

Definition get_public_ip (timeout : Q) : Prog (option string) :=
  if negb (REQUESTS_AVAILABLE host) then ret None
  else for_endpoints endpoints timeout.

(** *** Task 3: pinging *)

Definition _is_ipv6 (addr : string) : bool := contains ":" addr.

(** [try: f(target); return target, target  except OSError: pass]:
    [Some v] is [return v], [None] is going on after the [try]. *)
Definition literal_attempt (c : Call) (f : W -> result unit * W) (target : string)
  : Prog (option (string * option string)) :=
  TRY (extern c f;;; ret (Some (target, Some target)))
  EXCEPT isinstance_OSError AS e THEN ret None.

Definition _resolve_target (target : string) : Prog (string * option string) :=
  r4 <- literal_attempt (call_inet_aton target) (inet_aton host target) target;;
  match r4 with
  | Some v => ret v
  | None =>
      r6 <- literal_attempt (call_inet_pton6 target) (inet_pton6 host target) target;;
      match r6 with
      | Some v => ret v
      | None =>
          TRY (ip <- extern (call_gethostbyname target) (gethostbyname host target);;
               ret (target, Some ip))
          EXCEPT any_Exception AS e THEN ret (target, None)
      end
  end.

(** [IPv6(dst=ip) / ICMPv6EchoRequest()] and [IP(dst=ip) / ICMP()] *)
Definition echo_request6 (ip : string) : Packet := [IPv6 ip; ICMPv6EchoRequest].
Definition echo_request4 (ip : string) : Packet := [IP ip; ICMP_default].

(** Building a packet: the constructors run on the world and may raise;
    the packet built is the stack of layers asked for. *)
Definition build (pkt : Packet) : Prog unit :=
  fun s => let (r, w) := scapy_build host pkt (world s) in
           (r, mkState w (calls s) (probes s) (stdout s)).

(** The body of the [try] of [scapy_ping_once]. *)
Definition send_echo (ip : string) (timeout : Q) : Prog Status :=
  if _is_ipv6 ip then
    let pkt := echo_request6 ip in
    build pkt;;;
    ans <- extern (call_sr1 pkt timeout) (sr1 host pkt timeout);;
    match ans with
    | Some a => if haslayer is_ICMPv6EchoReply a then ret OK else ret FAILED
    | None => ret FAILED
    end
  else
    let pkt := echo_request4 ip in
    build pkt;;;
    ans <- extern (call_sr1 pkt timeout) (sr1 host pkt timeout);;
    match ans with
    | Some a =>
        if haslayer is_ICMP a then
          t <- lift (icmp_type a);;
          if (t =? 0)%Z then ret OK else ret FAILED
        else ret FAILED
    | None => ret FAILED
    end.

(** The [except] clauses of [scapy_ping_once], first match first. *)
Definition ping_handler (e : exn) : Prog Status :=
  if isinstance_PermissionError e then ret NO_PERM
  else if isinstance_OSError e then
    if contains "Operation not permitted" (str_exn e) then ret NO_PERM
    else ret ERROR
  else ret ERROR.

Definition scapy_ping_once (dst : string) (timeout : Q) : Prog Status :=
  enter_probe dst;;;
  if negb (SCAPY_AVAILABLE host) then ret NO_SCAPY
  else
    r <- _resolve_target dst;;
    match snd r with
    | None => ret RESOLVE_FAIL
    | Some ip =>
        TRY send_echo ip timeout EXCEPT any_Exception AS e THEN ping_handler e
    end.

(** *** Reports *)

Definition print_network_info : Prog unit :=
  local_ip <- get_local_ip "8.8.8.8" 80;;
  dns_list <- get_dns_servers;;
  public_ip <- get_public_ip http_timeout;;
  print "";;;
  (match truthy_opt local_ip with
   | Some ip => print ("Local IP Address: " ++ ip)
   | None => print "Local IP Address: <could not determine>"
   end);;;
  (match dns_list with
   | _ :: _ => print ("DNS Server(s): " ++ String.concat ", " dns_list)
   | [] => if negb (DNSPYTHON_AVAILABLE host)
           then print "DNS Server(s): <dnspython not installed>"
           else print "DNS Server(s): <could not determine>"
   end);;;
  (match truthy_opt public_ip with
   | Some ip => print ("Public IP Address: " ++ ip)
   | None => if negb (REQUESTS_AVAILABLE host)
             then print "Public IP Address: <requests not installed>"
             else print "Public IP Address: <could not determine>"
   end).

Definition dns_line (ns : string) (st : Status) : string :=
  "default DNS Server " ++ ns ++ ": " ++ status_str st.

Definition public_line (st : Status) : string :=
  "public DNS Server " ++ public_dns ++ ": " ++ status_str st.

(** The line of a user target: [name ip: status] when a name was resolved
    to something else, [name: status] otherwise. *)
Definition user_line (name : string) (ip : option string) (st : Status) : string :=
  match truthy_opt ip with
  | Some i => if negb (String.eqb name i)
              then name ++ " " ++ i ++ ": " ++ status_str st
              else name ++ ": " ++ status_str st
  | None => name ++ ": " ++ status_str st
  end.

(** [for ns in dns_list: ...] *)
Fixpoint ping_dns_servers (dns_list : list string) : Prog unit :=
  match dns_list with
  | [] => ret tt
  | ns :: rest =>
      status <- scapy_ping_once ns ping_timeout;;
      print (dns_line ns status);;;
      ping_dns_servers rest
  end.

(** [for t in user_targets: ...] *)
Fixpoint ping_user_targets (user_targets : list string) : Prog unit :=
  match user_targets with
  | [] => ret tt
  | t :: rest =>
      r <- _resolve_target t;;
      status <- scapy_ping_once t ping_timeout;;
      print (user_line (fst r) (snd r) status);;;
      ping_user_targets rest
  end.

Definition print_pings (user_targets : option (list string)) (dns_list : list string) : Prog unit :=
  print "";;;
  print "Pinging ...";;;
  (match dns_list with
   | _ :: _ => ping_dns_servers dns_list
   | [] => print "default DNS Server <none found>: SKIPPED"
   end);;;
  status <- scapy_ping_once public_dns ping_timeout;;
  print (public_line status);;;
  match user_targets with
  | Some ((_ :: _) as ts) => ping_user_targets ts
  | _ => ret tt
  end.

(** [args.ping or []] *)
Definition ping_or_empty (args : Args) : list string :=
  match ping args with
  | Some ((_ :: _) as l) => l
  | _ => []
  end.

(** [main], with the namespace [parse_args()] returned as its argument. *)
Definition main (args : Args) : Prog Z :=
  print "";;;
  print WELCOME;;;
  dns_list <- get_dns_servers;;
  if no_ping args then
    print_network_info;;; ret 0%Z
  else
    (if negb (quiet args) then print_network_info else ret tt);;;
    print_pings (Some (ping_or_empty args)) dns_list;;;
    ret 0%Z.

End Code.

(* ------------------------------------------------------------------ *)
(** ** How a run moves the state *)

Section Frames.

Context {W : Type}.

(** From [s] to [s'] only library calls of class [p] were made. *)
Definition calls_ext (p : Call -> bool) (s s' : State W) : Prop :=
  exists cs, calls s' = calls s ++ cs /\ forallb p cs = true.

(** From [s] to [s'] nothing was printed and no probe was entered. *)
Definition silent (s s' : State W) : Prop :=
  probes s' = probes s /\ stdout s' = stdout s.

Lemma calls_ext_refl p s : calls_ext p s s.
Proof. exists []. now rewrite app_nil_r. Qed.

Lemma calls_ext_same p s s' : calls s' = calls s -> calls_ext p s s'.
Proof. intros E. exists []. now rewrite app_nil_r. Qed.

Lemma calls_ext_trans p s1 s2 s3 :
  calls_ext p s1 s2 -> calls_ext p s2 s3 -> calls_ext p s1 s3.
Proof.
  intros [c1 [E1 F1]] [c2 [E2 F2]]. exists (c1 ++ c2). split.
  - now rewrite E2, E1, app_assoc.
  - now rewrite forallb_app, F1, F2.
Qed.

Lemma calls_ext_one p s s' c :
  calls s' = calls s ++ [c] -> p c = true -> calls_ext p s s'.
Proof. intros E Hc. exists [c]. split; [exact E | simpl; now rewrite Hc]. Qed.

Lemma calls_ext_weaken (p q : Call -> bool) s s' :
  (forall c, p c = true -> q c = true) -> calls_ext p s s' -> calls_ext q s s'.
Proof.
  intros Hpq [cs [E F]]. exists cs. split; [exact E |].
  rewrite forallb_forall in *. auto.
Qed.

(** Calls of a class the step does not make are left as they were. *)
Lemma calls_ext_filter (p q : Call -> bool) s s' :
  (forall c, p c = true -> q c = false) ->
  calls_ext p s s' -> filter q (calls s') = filter q (calls s).
Proof.
  intros Hpq [cs [E F]]. rewrite E, filter_app.
  assert (N : filter q cs = []).
  { clear E. induction cs as [|c cs IH]; [reflexivity |].
    simpl in *. apply andb_true_iff in F as [Fc Fcs].
    rewrite (Hpq c Fc). auto. }
  now rewrite N, app_nil_r.
Qed.

Lemma silent_refl s : silent s s.
Proof. now split. Qed.

Lemma silent_trans s1 s2 s3 : silent s1 s2 -> silent s2 s3 -> silent s1 s3.
Proof. intros [A B] [C D]. split; congruence. Qed.

End Frames.

Create HintDb frames.
#[global] Hint Resolve calls_ext_refl calls_ext_trans silent_refl silent_trans : frames.

(** The calls a probe may make, and the calls discovery may make. *)
Definition is_probe_call (c : Call) : bool := is_resolution c || is_sr1 c.
Definition is_discovery (c : Call) : bool :=
  is_udp_sockname c || is_nameservers c || is_requests_get c.

(* ------------------------------------------------------------------ *)
(** ** The resolver and the probe *)

Section ProbeFacts.

Context {W : Type} (host : Host W).

(** The documented failure of [inet_aton] and [inet_pton] on a string that
    is not a literal is [OSError]; a target is [literal_safe] when, given
    it, they raise nothing else in any world. *)
Definition literal_safe (t : string) : Prop :=
  forall w e,
    (fst (inet_aton host t w) = Raise e -> isinstance_OSError e = true) /\
    (fst (inet_pton6 host t w) = Raise e -> isinstance_OSError e = true).

Lemma extern_run {A} (c : Call) (f : W -> result A * W) (s : State W) :
  extern c f s =
  (fst (f (world s)), mkState (snd (f (world s))) (calls s ++ [c]) (probes s) (stdout s)).
Proof. unfold extern. now destruct (f (world s)). Qed.

(** What [_resolve_target] does to the state, whatever it answers. *)
Lemma resolve_frame t s r s' :
  _resolve_target host t s = (r, s') ->
  silent s s' /\ calls_ext is_resolution s s' /\
  (forall v, r = Ret v -> fst v = t).
Proof.
  unfold _resolve_target, literal_attempt, bind, try_except, ret.
  rewrite !extern_run.
  destruct (fst (inet_aton host t (world s))) as [[]|e4] eqn:E4; simpl.
  { intros H; inversion H; subst; clear H. repeat split; simpl.
    - eapply calls_ext_one; simpl; eauto.
    - intros v Hv; inversion Hv; reflexivity. }
  destruct (isinstance_OSError e4); simpl.
  2:{ intros H; inversion H; subst; clear H. repeat split; simpl.
      - eapply calls_ext_one; simpl; eauto.
      - intros v Hv; discriminate. }
  rewrite !extern_run; simpl.
  match goal with |- context [inet_pton6 host t ?w] =>
    destruct (fst (inet_pton6 host t w)) as [[]|e6] eqn:E6 end; simpl.
  { intros H; inversion H; subst; clear H. repeat split; simpl.
    - exists [call_inet_aton t; call_inet_pton6 t]. now rewrite <- app_assoc.
    - intros v Hv; inversion Hv; reflexivity. }
  destruct (isinstance_OSError e6); simpl.
  2:{ intros H; inversion H; subst; clear H. repeat split; simpl.
      - exists [call_inet_aton t; call_inet_pton6 t]. now rewrite <- app_assoc.
      - intros v Hv; discriminate. }
  rewrite !extern_run; simpl.
  match goal with |- context [gethostbyname host t ?w] =>
    destruct (fst (gethostbyname host t w)) as [ip|e] eqn:E end; simpl;
  intros H; inversion H; subst; clear H; repeat split; simpl;
  try (exists [call_inet_aton t; call_inet_pton6 t; call_gethostbyname t];
       now rewrite <- !app_assoc);
  intros v Hv; inversion Hv; reflexivity.
Qed.

(** For a [literal_safe] target the resolver always answers. *)
Lemma resolve_total t (Hsafe : literal_safe t) s :
  exists ip s', _resolve_target host t s = (Ret (t, ip), s').
Proof.
  unfold _resolve_target, literal_attempt, bind, try_except, ret.
  rewrite !extern_run.
  destruct (fst (inet_aton host t (world s))) as [[]|e4] eqn:E4; simpl; [eauto |].
  rewrite (proj1 (Hsafe _ _) E4); simpl.
  rewrite !extern_run; simpl.
  match goal with |- context [inet_pton6 host t ?w] =>
    destruct (fst (inet_pton6 host t w)) as [[]|e6] eqn:E6 end; simpl; [eauto |].
  rewrite (proj2 (Hsafe _ _) E6); simpl.
  rewrite !extern_run; simpl.
  match goal with |- context [gethostbyname host t ?w] =>
    destruct (fst (gethostbyname host t w)) as [ip|e] eqn:E end; simpl; eauto.
Qed.

(** The request [send_echo] builds: the family is read off the literal. *)
Definition echo_request (ip : string) : Packet :=
  if _is_ipv6 ip then echo_request6 ip else echo_request4 ip.

(** The state after [scapy_ping_once] was entered, after a line was
    printed, and after the echo request went out. *)
Definition entered (dst : string) (s : State W) : State W :=
  mkState (world s) (calls s) (probes s ++ [dst]) (stdout s).

Definition printed (line : string) (s : State W) : State W :=
  mkState (world s) (calls s) (probes s) (stdout s ++ [line]).

(** The state after the request for [ip] was built. *)
Definition built (ip : string) (s : State W) : State W :=
  mkState (snd (scapy_build host (echo_request ip) (world s)))
          (calls s) (probes s) (stdout s).

(** The state after the send step: the request was built and, unless the
    constructors raised, handed to [sr1]. *)
Definition sent (ip : string) (timeout : Q) (s : State W) : State W :=
  match fst (scapy_build host (echo_request ip) (world s)) with
  | Ret _ =>
      mkState (snd (sr1 host (echo_request ip) timeout (world (built ip s))))
              (calls s ++ [call_sr1 (echo_request ip) timeout])
              (probes s) (stdout s)
  | Raise _ => built ip s
  end.

(** What the send step for [ip] yields in state [s]: the exception of the
    constructors if they raise, and what [sr1] answers to the request built
    otherwise. *)
Definition answer (ip : string) (timeout : Q) (s : State W) : result (option Packet) :=
  match fst (scapy_build host (echo_request ip) (world s)) with
  | Ret _ => fst (sr1 host (echo_request ip) timeout (world (built ip s)))
  | Raise e => Raise e
  end.

Lemma haslayer_icmp_type a :
  haslayer is_ICMP a = true -> exists t, icmp_type a = Ret t /\ getlayer is_ICMP a = Some (ICMP t).
Proof.
  unfold haslayer, icmp_type, getlayer.
  induction a as [|l a IH]; simpl; [discriminate |].
  destruct l; simpl; eauto.
Qed.

Lemma build_run pkt (s : State W) :
  build host pkt s
  = (fst (scapy_build host pkt (world s)),
     mkState (snd (scapy_build host pkt (world s))) (calls s) (probes s) (stdout s)).
Proof. unfold build. now destruct (scapy_build host pkt (world s)). Qed.

(** What the [try] body makes of what [sr1] returned. *)
Definition reply_status (ip : string) (ans : option Packet) : result Status :=
  match ans with
  | None => Ret FAILED
  | Some a =>
      if _is_ipv6 ip then
        if haslayer is_ICMPv6EchoReply a then Ret OK else Ret FAILED
      else if haslayer is_ICMP a then
        match icmp_type a with
        | Ret t => if (t =? 0)%Z then Ret OK else Ret FAILED
        | Raise e => Raise e
        end
      else Ret FAILED
  end.

Lemma reply_status_returns ip ans :
  exists st, reply_status ip ans = Ret st /\ (st = OK \/ st = FAILED).
Proof.
  unfold reply_status. destruct ans as [a|]; [| eauto].
  destruct (_is_ipv6 ip).
  - destruct (haslayer is_ICMPv6EchoReply a); eauto.
  - destruct (haslayer is_ICMP a) eqn:Hl; [| eauto].
    destruct (haslayer_icmp_type a Hl) as [t [Ht _]]. rewrite Ht.
    destruct (t =? 0)%Z; eauto.
Qed.

(** The [try] body, in one equation: the request is built; if that raises,
    the exception is the outcome and nothing is sent; otherwise the request
    is sent once and the outcome is [sr1]'s exception or the status of its
    answer. *)
Lemma send_echo_run ip timeout s :
  send_echo host ip timeout s
  = (match answer ip timeout s with
     | Ret ans => reply_status ip ans
     | Raise e => Raise e
     end,
     sent ip timeout s).
Proof.
  unfold send_echo, answer, sent, built, reply_status, echo_request, bind, ret, lift.
  destruct (_is_ipv6 ip); rewrite build_run;
    destruct (fst (scapy_build host _ (world s))) as [[]|eb]; simpl; try reflexivity;
    rewrite extern_run; simpl;
    destruct (fst (sr1 host _ timeout _)) as [[a|]|e]; simpl; try reflexivity.
  - now destruct (haslayer is_ICMPv6EchoReply a).
  - destruct (haslayer is_ICMP a) eqn:Hl; [| reflexivity].
    destruct (haslayer_icmp_type a Hl) as [t [Ht _]]. rewrite Ht.
    now destruct (t =? 0)%Z.
Qed.

(** The [try] body ends in the state [sent], whatever it yields. *)
Lemma send_echo_frame ip timeout s :
  snd (send_echo host ip timeout s) = sent ip timeout s.
Proof. now rewrite send_echo_run. Qed.

(** The send step makes at most one call, an [sr1] call. *)
Lemma sent_frame ip timeout s :
  silent s (sent ip timeout s) /\ calls_ext is_sr1 s (sent ip timeout s).
Proof.
  unfold sent, built. destruct (fst (scapy_build host _ (world s))); simpl.
  - split; [now split |]. eapply calls_ext_one; simpl; reflexivity.
  - split; [now split |]. apply calls_ext_same. reflexivity.
Qed.

(** What the send step logs: one [sr1] call when the request was built,
    nothing when the constructors raised. *)
Lemma sent_calls ip timeout s :
  calls (sent ip timeout s)
  = calls s ++ (if returns (fst (scapy_build host (echo_request ip) (world s)))
                then [call_sr1 (echo_request ip) timeout] else []).
Proof.
  unfold sent, built. destruct (fst (scapy_build host _ (world s))); simpl;
    [reflexivity | now rewrite app_nil_r].
Qed.

Lemma sent_calls_answered ip timeout s ans :
  answer ip timeout s = Ret ans ->
  calls (sent ip timeout s) = calls s ++ [call_sr1 (echo_request ip) timeout].
Proof.
  rewrite sent_calls. unfold answer.
  destruct (fst (scapy_build host _ (world s))); [reflexivity | discriminate].
Qed.

Lemma ping_handler_run e (s : State W) :
  ping_handler e s
  = (Ret (if isinstance_PermissionError e then NO_PERM
          else if isinstance_OSError e && contains "Operation not permitted" (str_exn e)
               then NO_PERM else ERROR), s).
Proof.
  unfold ping_handler, ret. destruct (isinstance_PermissionError e); [reflexivity |].
  destruct (isinstance_OSError e); [| reflexivity].
  now destruct (contains _ _).
Qed.

(** The guarded send of [scapy_ping_once] always ends in a status. *)
Lemma guarded_send_total ip timeout s :
  exists st,
    try_except (send_echo host ip timeout) any_Exception ping_handler s
    = (Ret st, sent ip timeout s).
Proof.
  unfold try_except. rewrite send_echo_run.
  destruct (answer ip timeout s) as [ans|e].
  - destruct (reply_status_returns ip ans) as [st [E _]]. rewrite E. eauto.
  - unfold any_Exception. rewrite ping_handler_run. eauto.
Qed.

(** [scapy_ping_once], branch by branch. *)
Lemma scapy_ping_once_unavailable dst timeout s :
  SCAPY_AVAILABLE host = false ->
  scapy_ping_once host dst timeout s = (Ret NO_SCAPY, entered dst s).
Proof. intros H. unfold scapy_ping_once, bind, enter_probe. now rewrite H. Qed.

Lemma scapy_ping_once_raise dst timeout s e s1 :
  SCAPY_AVAILABLE host = true ->
  _resolve_target host dst (entered dst s) = (Raise e, s1) ->
  scapy_ping_once host dst timeout s = (Raise e, s1).
Proof.
  intros H R. unfold scapy_ping_once, bind, enter_probe. rewrite H. simpl.
  fold (entered dst s). now rewrite R.
Qed.

Lemma scapy_ping_once_unresolved dst timeout s name s1 :
  SCAPY_AVAILABLE host = true ->
  _resolve_target host dst (entered dst s) = (Ret (name, None), s1) ->
  scapy_ping_once host dst timeout s = (Ret RESOLVE_FAIL, s1).
Proof.
  intros H R. unfold scapy_ping_once, bind, enter_probe. rewrite H. simpl.
  fold (entered dst s). now rewrite R.
Qed.

Lemma scapy_ping_once_resolved dst timeout s name ip s1 :
  SCAPY_AVAILABLE host = true ->
  _resolve_target host dst (entered dst s) = (Ret (name, Some ip), s1) ->
  scapy_ping_once host dst timeout s
  = try_except (send_echo host ip timeout) any_Exception ping_handler s1.
Proof.
  intros H R. unfold scapy_ping_once, bind, enter_probe. rewrite H. simpl.
  fold (entered dst s). now rewrite R.
Qed.

(** Whatever the probe answers, it logs itself once, prints nothing and
    makes resolution and send calls only. *)
Lemma scapy_ping_once_frame dst timeout s r s' :
  scapy_ping_once host dst timeout s = (r, s') ->
  probes s' = probes s ++ [dst] /\ stdout s' = stdout s /\
  calls_ext is_probe_call s s'.
Proof.
  destruct (SCAPY_AVAILABLE host) eqn:Hav.
  2:{ rewrite scapy_ping_once_unavailable by assumption.
      intros H; inversion H; subst; simpl. repeat split.
      apply calls_ext_same. reflexivity. }
  destruct (_resolve_target host dst (entered dst s)) as [[[name [ip|]]|e] s1] eqn:R;
    pose proof (resolve_frame _ _ _ _ R) as [[P O] [C _]]; simpl in P, O;
    assert (C' : calls_ext is_probe_call s s1)
      by (eapply calls_ext_weaken; [| destruct C as [cs Hcs]; exists cs; exact Hcs];
          intros c Hc; unfold is_probe_call; now rewrite Hc).
  - rewrite (scapy_ping_once_resolved _ _ _ _ _ _ Hav R).
    destruct (guarded_send_total ip timeout s1) as [st E]. rewrite E.
    destruct (sent_frame ip timeout s1) as [[Ps Os] Cs].
    intros H; inversion H; subst; simpl. repeat split; try congruence.
    eapply calls_ext_trans; [exact C' |].
    eapply calls_ext_weaken; [| exact Cs].
    intros c Hc. unfold is_probe_call. rewrite Hc. now rewrite orb_true_r.
  - rewrite (scapy_ping_once_unresolved _ _ _ _ _ Hav R).
    intros H; inversion H; subst. auto.
  - rewrite (scapy_ping_once_raise _ _ _ _ _ Hav R).
    intros H; inversion H; subst. auto.
Qed.

(** For a [literal_safe] target the probe always ends in a status. *)
Lemma scapy_ping_once_total dst (Hsafe : literal_safe dst) timeout s :
  exists st s', scapy_ping_once host dst timeout s = (Ret st, s').
Proof.
  destruct (SCAPY_AVAILABLE host) eqn:Hav.
  2:{ rewrite scapy_ping_once_unavailable by assumption. eauto. }
  destruct (resolve_total dst Hsafe (entered dst s)) as [[ip|] [s1 R]].
  - rewrite (scapy_ping_once_resolved _ _ _ _ _ _ Hav R).
    destruct (guarded_send_total ip timeout s1) as [st E]. rewrite E. eauto.
  - rewrite (scapy_ping_once_unresolved _ _ _ _ _ Hav R). eauto.
Qed.

(** A target no resolver call accepts, in any world: both literal parsers
    reject it with [OSError] and the name lookup raises. *)
Definition unresolvable (t : string) : Prop :=
  forall w,
    (exists e, fst (inet_aton host t w) = Raise e /\ isinstance_OSError e = true) /\
    (exists e, fst (inet_pton6 host t w) = Raise e /\ isinstance_OSError e = true) /\
    (exists e, fst (gethostbyname host t w) = Raise e).

Lemma resolve_unresolvable t s :
  unresolvable t -> exists s', _resolve_target host t s = (Ret (t, None), s').
Proof.
  intros U. unfold _resolve_target, literal_attempt, bind, try_except, ret.
  rewrite !extern_run.
  destruct (U (world s)) as [[e4 [E4 O4]] _]. rewrite E4; simpl. rewrite O4; simpl.
  rewrite !extern_run; simpl.
  match goal with |- context [inet_pton6 host t ?w] =>
    destruct (U w) as [_ [[e6 [E6 O6]] _]] end.
  rewrite E6; simpl. rewrite O6; simpl.
  rewrite !extern_run; simpl.
  match goal with |- context [gethostbyname host t ?w] =>
    destruct (U w) as [_ [_ [e E]]] end.
  rewrite E; simpl. eauto.
Qed.

(** The status of a probe of an unresolvable target: the capability check
    comes first. *)
Lemma scapy_ping_once_unresolvable t timeout s :
  unresolvable t ->
  exists s', scapy_ping_once host t timeout s
             = (Ret (if SCAPY_AVAILABLE host then RESOLVE_FAIL else NO_SCAPY), s').
Proof.
  intros U. destruct (SCAPY_AVAILABLE host) eqn:Hav.
  - destruct (resolve_unresolvable t (entered t s) U) as [s1 R].
    rewrite (scapy_ping_once_unresolved _ _ _ _ _ Hav R). eauto.
  - rewrite scapy_ping_once_unavailable by assumption. eauto.
Qed.

(** The first thing the resolver does is to try the IPv4 parser. *)
Lemma resolve_calls_aton t s r s' :
  _resolve_target host t s = (r, s') ->
  exists cs, calls s' = calls s ++ call_inet_aton t :: cs.
Proof.
  unfold _resolve_target, literal_attempt, bind, try_except, ret.
  rewrite !extern_run.
  destruct (fst (inet_aton host t (world s))) as [[]|e4]; simpl.
  { intros H; inversion H; subst; simpl. now exists []. }
  destruct (isinstance_OSError e4); simpl.
  2:{ intros H; inversion H; subst; simpl. now exists []. }
  rewrite !extern_run; simpl.
  match goal with |- context [inet_pton6 host t ?w] =>
    destruct (fst (inet_pton6 host t w)) as [[]|e6] end; simpl.
  { intros H; inversion H; subst; simpl. rewrite <- app_assoc. now eexists. }
  destruct (isinstance_OSError e6); simpl.
  2:{ intros H; inversion H; subst; simpl. rewrite <- app_assoc. now eexists. }
  rewrite !extern_run; simpl.
  match goal with |- context [gethostbyname host t ?w] =>
    destruct (fst (gethostbyname host t w)) as [ip|e] end; simpl;
  intros H; inversion H; subst; simpl; rewrite <- !app_assoc; now eexists.
Qed.

End ProbeFacts.

(* ------------------------------------------------------------------ *)
(** ** Discovery *)

Section DiscoveryFacts.

Context {W : Type} (host : Host W).

Lemma bind_run {A B} (m : M W A) (k : A -> M W B) s a s1 :
  m s = (Ret a, s1) -> bind m k s = k a s1.
Proof. intros E. unfold bind. now rewrite E. Qed.

Lemma bind_raise {A B} (m : M W A) (k : A -> M W B) s e s1 :
  m s = (Raise e, s1) -> bind m k s = (Raise e, s1).
Proof. intros E. unfold bind. now rewrite E. Qed.

Lemma print_run line (s : State W) : print line s = (Ret tt, printed line s).
Proof. reflexivity. Qed.

(** The list [get_dns_servers] answers in world [w]. *)
Definition discovered_dns (w : W) : list string :=
  if DNSPYTHON_AVAILABLE host then
    match fst (nameservers host w) with
    | Ret l => l
    | Raise _ => []
    end
  else [].

(** The state [get_dns_servers] leaves: one [nameservers] call when
    dnspython is there, nothing otherwise. *)
Definition after_dns (s : State W) : State W :=
  if DNSPYTHON_AVAILABLE host then
    mkState (snd (nameservers host (world s))) (calls s ++ [call_nameservers])
            (probes s) (stdout s)
  else s.

Lemma get_dns_servers_run s :
  get_dns_servers host s = (Ret (discovered_dns (world s)), after_dns s).
Proof.
  unfold get_dns_servers, discovered_dns, after_dns.
  destruct (DNSPYTHON_AVAILABLE host); simpl; [| reflexivity].
  unfold try_except. rewrite extern_run.
  now destruct (fst (nameservers host (world s))).
Qed.

Lemma after_dns_frame s :
  silent s (after_dns s) /\ calls_ext is_nameservers s (after_dns s).
Proof.
  unfold after_dns. destruct (DNSPYTHON_AVAILABLE host); simpl.
  - split; [now split |]. eapply calls_ext_one; simpl; reflexivity.
  - auto with frames.
Qed.

Lemma get_local_ip_total ip port s :
  exists r s', get_local_ip host ip port s = (Ret r, s') /\
               silent s s' /\ calls s' = calls s ++ [call_udp_sockname ip port].
Proof.
  unfold get_local_ip, try_except, bind, ret. rewrite extern_run.
  destruct (fst (udp_sockname host ip port (world s))); simpl;
    do 2 eexists; (split; [reflexivity |]); split; try reflexivity; now split.
Qed.

(** One endpoint, inside its [try]: it never raises, it makes one request. *)
Lemma guarded_query_total url kind timeout s :
  exists r s',
    try_except (query_endpoint host url kind timeout) any_Exception (fun _ => ret None) s
    = (Ret r, s') /\
    silent s s' /\ calls s' = calls s ++ [call_requests_get url timeout].
Proof.
  unfold try_except, query_endpoint, bind, lift, ret. rewrite extern_run.
  destruct (fst (requests_get host url timeout (world s))) as [r|e]; simpl.
  2:{ do 2 eexists. split; [reflexivity |]. split; [now split | reflexivity]. }
  destruct (raise_for_status r); simpl.
  2:{ do 2 eexists. split; [reflexivity |]. split; [now split | reflexivity]. }
  destruct (kind =? "json")%string.
  2:{ do 2 eexists. split; [reflexivity |]. split; [now split | reflexivity]. }
  destruct (json r) as [data|]; simpl.
  2:{ do 2 eexists. split; [reflexivity |]. split; [now split | reflexivity]. }
  destruct (json_get data "ip") as [ip|]; simpl.
  2:{ do 2 eexists. split; [reflexivity |]. split; [now split | reflexivity]. }
  destruct (truthy ip); [destruct (json_strip ip) |]; simpl;
    do 2 eexists; (split; [reflexivity |]); (split; [now split | reflexivity]).
Qed.

Lemma for_endpoints_total eps timeout s :
  exists r s', for_endpoints host eps timeout s = (Ret r, s') /\
               silent s s' /\ calls_ext is_requests_get s s'.
Proof.
  revert s. induction eps as [|[url kind] rest IH]; intros s; simpl.
  - unfold ret. do 2 eexists. split; [reflexivity |]. auto with frames.
  - destruct (guarded_query_total url kind timeout s) as [r [s1 [E [S C]]]].
    rewrite (bind_run _ _ _ _ _ E).
    assert (C1 : calls_ext is_requests_get s s1)
      by (eapply calls_ext_one; [exact C | reflexivity]).
    destruct r as [v|].
    + unfold ret. do 2 eexists. split; [reflexivity |]. auto.
    + destruct (IH s1) as [r [s2 [E2 [S2 C2]]]].
      exists r, s2. split; [exact E2 |]. split; eauto with frames.
Qed.

Lemma get_public_ip_total timeout s :
  exists r s', get_public_ip host timeout s = (Ret r, s') /\
               silent s s' /\ calls_ext is_requests_get s s'.
Proof.
  unfold get_public_ip. destruct (REQUESTS_AVAILABLE host); cbn [negb].
  - apply for_endpoints_total.
  - unfold ret. do 2 eexists. split; [reflexivity |]. auto with frames.
Qed.

(** The snapshot report: three lookups, then a blank line and three lines.
    It never raises and never enters a probe. *)
Lemma print_network_info_total s :
  exists l d p s',
    print_network_info host s = (Ret tt, s') /\
    probes s' = probes s /\
    stdout s' = stdout s ++ [""; l; d; p] /\
    calls_ext is_discovery s s'.
Proof.
  unfold print_network_info.
  destruct (get_local_ip_total "8.8.8.8" 80 s) as [lo [s1 [E1 [[P1 O1] C1]]]].
  rewrite (bind_run _ _ _ _ _ E1), (bind_run _ _ _ _ _ (get_dns_servers_run s1)).
  destruct (after_dns_frame s1) as [[P2 O2] C2].
  destruct (get_public_ip_total http_timeout (after_dns s1)) as [pu [s3 [E3 [[P3 O3] C3]]]].
  rewrite (bind_run _ _ _ _ _ E3).
  assert (C : calls_ext is_discovery s s3).
  { eapply calls_ext_trans; [eapply calls_ext_one; [exact C1 | reflexivity] |].
    eapply calls_ext_trans.
    - eapply calls_ext_weaken; [| exact C2].
      intros c Hc. unfold is_discovery. rewrite Hc. now rewrite orb_true_r.
    - eapply calls_ext_weaken; [| exact C3].
      intros c Hc. unfold is_discovery. rewrite Hc. now rewrite orb_true_r. }
  assert (P : probes s3 = probes s) by congruence.
  assert (O : stdout s3 = stdout s) by congruence.
  rewrite (bind_run _ _ _ _ _ (print_run _ _)).
  set (k1 := match truthy_opt lo with Some ip => _ | None => _ end).
  set (k2 := match discovered_dns (world s1) with [] => _ | _ :: _ => _ end).
  set (k3 := match truthy_opt pu with Some ip => _ | None => _ end).
  assert (H1 : exists l, k1 = print l)
    by (subst k1; destruct (truthy_opt lo); eauto).
  assert (H2 : exists l, k2 = print l)
    by (subst k2; destruct (discovered_dns (world s1));
        [destruct (negb (DNSPYTHON_AVAILABLE host)) |]; eauto).
  assert (H3 : exists l, k3 = print l)
    by (subst k3; destruct (truthy_opt pu);
        [| destruct (negb (REQUESTS_AVAILABLE host))]; eauto).
  destruct H1 as [l ->], H2 as [d ->], H3 as [p ->].
  exists l, d, p. eexists.
  rewrite (bind_run _ _ _ _ _ (print_run _ _)), (bind_run _ _ _ _ _ (print_run _ _)).
  rewrite print_run. split; [reflexivity |]. simpl.
  split; [exact P |]. split.
  - rewrite O, <- !app_assoc. reflexivity.
  - destruct C as [cs Hcs]. exists cs. exact Hcs.
Qed.

End DiscoveryFacts.

(* ------------------------------------------------------------------ *)
(** ** The ping report *)

(** A probed DNS server with its status; a user target with the address
    its first resolution gave and its status. *)
Definition DnsResult : Type := string * Status.
Definition UserResult : Type := string * option string * Status.

Definition dns_lines (rd : list DnsResult) : list string :=
  map (fun x => dns_line (fst x) (snd x)) rd.

Definition user_lines (ru : list UserResult) : list string :=
  map (fun x => user_line (fst (fst x)) (snd (fst x)) (snd x)) ru.

(** The lines [print_pings] prints for given results. *)
Definition ping_report (rd : list DnsResult) (pst : Status) (ru : list UserResult)
  : list string :=
  [""; "Pinging ..."]
  ++ (match rd with
      | [] => ["default DNS Server <none found>: SKIPPED"]
      | _ :: _ => dns_lines rd
      end)
  ++ [public_line pst]
  ++ user_lines ru.

Section OrchestratorFacts.

Context {W : Type} (host : Host W).

Lemma ping_dns_servers_spec l s :
  Forall (literal_safe host) l ->
  exists rd s',
    ping_dns_servers host l s = (Ret tt, s') /\
    map fst rd = l /\
    probes s' = probes s ++ l /\
    stdout s' = stdout s ++ dns_lines rd /\
    calls_ext is_probe_call s s'.
Proof.
  revert s. induction l as [|ns l IH]; intros s Hsafe; simpl.
  - exists [], s. unfold ret. rewrite !app_nil_r. auto with frames.
  - inversion Hsafe as [|? ? Hns Hl]; subst.
    destruct (scapy_ping_once_total host ns Hns ping_timeout s) as [st [s1 E]].
    destruct (scapy_ping_once_frame _ _ _ _ _ _ E) as [P [O C]].
    rewrite (bind_run _ _ _ _ _ E), (bind_run _ _ _ _ _ (print_run _ _)).
    destruct (IH (printed (dns_line ns st) s1) Hl) as [rd [s' [E' [Hm [P' [O' C']]]]]].
    exists ((ns, st) :: rd), s'. split; [exact E' |]. simpl in *.
    split; [now rewrite Hm |].
    split; [now rewrite P', P, <- app_assoc |].
    split; [now rewrite O', O, <- app_assoc |].
    eapply calls_ext_trans; [exact C |].
    destruct C' as [cs Hcs]. exists cs. exact Hcs.
Qed.

(** What is known of the result of a user target that cannot resolve. *)
Definition user_result_ok (x : UserResult) : Prop :=
  unresolvable host (fst (fst x)) ->
  snd (fst x) = None /\
  snd x = if SCAPY_AVAILABLE host then RESOLVE_FAIL else NO_SCAPY.

Lemma calls_ext_In p (s s' : State W) c :
  calls_ext p s s' -> In c (calls s) -> In c (calls s').
Proof. intros [cs [E _]] H. rewrite E. apply in_or_app. now left. Qed.

Lemma ping_user_targets_spec l s :
  Forall (literal_safe host) l ->
  exists ru s',
    ping_user_targets host l s = (Ret tt, s') /\
    map (fun x : UserResult => fst (fst x)) ru = l /\
    probes s' = probes s ++ l /\
    stdout s' = stdout s ++ user_lines ru /\
    calls_ext is_probe_call s s' /\
    Forall user_result_ok ru /\
    Forall (fun t => In (call_inet_aton t) (calls s')) l.
Proof.
  revert s. induction l as [|t l IH]; intros s Hsafe; simpl.
  - exists [], s. unfold ret. rewrite !app_nil_r. auto 10 with frames.
  - inversion Hsafe as [|? ? Ht Hl]; subst.
    destruct (resolve_total host t Ht s) as [ip [s0 R]].
    destruct (resolve_frame _ _ _ _ _ R) as [[P0 O0] [C0 _]].
    destruct (resolve_calls_aton _ _ _ _ _ R) as [cs0 A0].
    destruct (scapy_ping_once_total host t Ht ping_timeout s0) as [st [s1 E]].
    destruct (scapy_ping_once_frame _ _ _ _ _ _ E) as [P [O C]].
    rewrite (bind_run _ _ _ _ _ R), (bind_run _ _ _ _ _ E),
      (bind_run _ _ _ _ _ (print_run _ _)).
    destruct (IH (printed (user_line t ip st) s1) Hl)
      as [ru [s' [E' [Hm [P' [O' [C' [F' A']]]]]]]].
    assert (C1 : calls_ext is_probe_call s0 s')
      by (eapply calls_ext_trans; [exact C |];
          destruct C' as [cs Hcs]; exists cs; exact Hcs).
    exists ((t, ip, st) :: ru), s'. split; [exact E' |]. simpl in *.
    split; [now rewrite Hm |].
    split; [now rewrite P', P, P0, <- app_assoc |].
    split; [now rewrite O', O, O0, <- app_assoc |].
    split.
    { eapply calls_ext_trans; [| exact C1].
      eapply calls_ext_weaken; [| exact C0].
      intros c Hc. unfold is_probe_call. now rewrite Hc. }
    split.
    { constructor; [| exact F']. intros U. simpl in *.
      destruct (resolve_unresolvable host t s U) as [sa Ra].
      destruct (scapy_ping_once_unresolvable host t ping_timeout s0 U) as [sb Eb].
      rewrite R in Ra. rewrite E in Eb.
      inversion Ra; inversion Eb; subst. auto. }
    constructor; [| exact A'].
    eapply calls_ext_In; [exact C1 |]. rewrite A0.
    apply in_or_app. right. now left.
Qed.

(** [print_pings] on [literal_safe] targets: it returns, it probes the DNS
    servers, the public resolver and the user targets in this order, and it
    prints one line for each in the same order. *)
Lemma print_pings_spec user dns s :
  Forall (literal_safe host) (dns ++ [public_dns] ++ user) ->
  exists rd pst ru s',
    print_pings host (Some user) dns s = (Ret tt, s') /\
    map fst rd = dns /\
    map (fun x : UserResult => fst (fst x)) ru = user /\
    probes s' = probes s ++ dns ++ [public_dns] ++ user /\
    stdout s' = stdout s ++ ping_report rd pst ru /\
    calls_ext is_probe_call s s' /\
    Forall user_result_ok ru /\
    Forall (fun t => In (call_inet_aton t) (calls s')) user.
Proof.
  intros Hsafe. apply Forall_app in Hsafe as [Hdns Hrest].
  apply Forall_app in Hrest as [Hpub Huser].
  inversion Hpub as [|? ? Hpub' _]; subst.
  unfold print_pings.
  rewrite (bind_run _ _ _ _ _ (print_run _ _)), (bind_run _ _ _ _ _ (print_run _ _)).
  set (s0 := printed "Pinging ..." (printed "" s)).
  assert (D : exists rd s1,
             (match dns with
              | [] => print "default DNS Server <none found>: SKIPPED"
              | _ :: _ => ping_dns_servers host dns
              end) s0 = (Ret tt, s1) /\
             map fst rd = dns /\ probes s1 = probes s ++ dns /\
             stdout s1 = stdout s ++ [""; "Pinging ..."]
                         ++ (match rd with
                             | [] => ["default DNS Server <none found>: SKIPPED"]
                             | _ :: _ => dns_lines rd
                             end) /\
             calls_ext is_probe_call s s1).
  { destruct dns as [|ns dns].
    - exists [], (printed "default DNS Server <none found>: SKIPPED" s0).
      rewrite print_run. simpl. rewrite app_nil_r, <- !app_assoc.
      repeat split. apply calls_ext_same. reflexivity.
    - destruct (ping_dns_servers_spec (ns :: dns) s0 Hdns) as [rd [s1 [E [Hm [P [O C]]]]]].
      exists rd, s1. split; [exact E |]. split; [exact Hm |].
      split; [exact P |]. split.
      + rewrite O. simpl. rewrite <- !app_assoc. simpl.
        destruct rd; [discriminate | reflexivity].
      + destruct C as [cs Hcs]. exists cs. exact Hcs. }
  destruct D as [rd [s1 [E1 [Hm [P1 [O1 C1]]]]]].
  rewrite (bind_run _ _ _ _ _ E1).
  destruct (scapy_ping_once_total host public_dns Hpub' ping_timeout s1) as [pst [s2 E2]].
  destruct (scapy_ping_once_frame _ _ _ _ _ _ E2) as [P2 [O2 C2]].
  rewrite (bind_run _ _ _ _ _ E2), (bind_run _ _ _ _ _ (print_run _ _)).
  set (s3 := printed (public_line pst) s2).
  assert (U : exists ru s',
             (match user with
              | [] => ret tt
              | _ :: _ => ping_user_targets host user
              end) s3 = (Ret tt, s') /\
             map (fun x : UserResult => fst (fst x)) ru = user /\
             probes s' = probes s3 ++ user /\
             stdout s' = stdout s3 ++ user_lines ru /\
             calls_ext is_probe_call s3 s' /\
             Forall user_result_ok ru /\
             Forall (fun t => In (call_inet_aton t) (calls s')) user).
  { destruct user as [|t user].
    - exists [], s3. unfold ret. rewrite !app_nil_r. auto 10 with frames.
    - apply ping_user_targets_spec. exact Huser. }
  destruct U as [ru [s' [E3 [Hu [P3 [O3 [C3 [F3 A3]]]]]]]].
  exists rd, pst, ru, s'.
  split. { destruct user; exact E3. }
  split; [exact Hm |]. split; [exact Hu |]. simpl in *.
  split; [rewrite P3, P2, P1, <- !app_assoc; reflexivity |].
  split.
  - rewrite O3, O2, O1. unfold ping_report. rewrite <- !app_assoc. reflexivity.
  - split; [| split; assumption].
    eapply calls_ext_trans; [exact C1 |].
    eapply calls_ext_trans; [exact C2 |].
    destruct C3 as [cs Hcs]. exists cs. exact Hcs.
Qed.

End OrchestratorFacts.

(* ------------------------------------------------------------------ *)
(** ** Whole runs *)

Section MainFacts.

Context {W : Type} (host : Host W).

(** The state after the banner. *)
Definition welcomed (s : State W) : State W := printed WELCOME (printed "" s).

(** Everything a run may call. *)
Definition is_any_call (c : Call) : bool := is_discovery c || is_probe_call c.

Lemma main_start args s :
  main host args s =
  (if no_ping args then
     bind (print_network_info host) (fun _ => ret 0%Z)
   else
     bind (if negb (quiet args) then print_network_info host else ret tt)
       (fun _ => bind (print_pings host (Some (ping_or_empty args))
                         (discovered_dns host (world s)))
                   (fun _ => ret 0%Z)))
    (after_dns host (welcomed s)).
Proof.
  unfold main.
  rewrite (bind_run _ _ _ _ _ (print_run _ _)), (bind_run _ _ _ _ _ (print_run _ _)).
  rewrite (bind_run _ _ _ _ _ (get_dns_servers_run host _)).
  reflexivity.
Qed.

Lemma welcomed_dns_frame s :
  probes (after_dns host (welcomed s)) = probes s /\
  stdout (after_dns host (welcomed s)) = stdout s ++ [""; WELCOME] /\
  calls_ext is_nameservers s (after_dns host (welcomed s)).
Proof.
  destruct (after_dns_frame host (welcomed s)) as [[P O] C].
  split; [exact P |]. split.
  - rewrite O. simpl. now rewrite <- app_assoc.
  - destruct C as [cs Hcs]. exists cs. exact Hcs.
Qed.

(** A run with [-n]: the snapshot is printed and the run is over. *)
Lemma main_info_only_run args s :
  no_ping args = true ->
  exists l d p s',
    main host args s = (Ret 0%Z, s') /\
    print_network_info host (after_dns host (welcomed s)) = (Ret tt, s') /\
    probes s' = probes s /\
    stdout s' = stdout s ++ [""; WELCOME; ""; l; d; p] /\
    calls_ext is_discovery s s'.
Proof.
  intros Hn. rewrite main_start, Hn.
  destruct (welcomed_dns_frame s) as [P0 [O0 C0]].
  destruct (print_network_info_total host (after_dns host (welcomed s)))
    as [l [d [p [s' [E [P [O C]]]]]]].
  exists l, d, p, s'. rewrite (bind_run _ _ _ _ _ E).
  split; [reflexivity |]. split; [exact E |].
  split; [congruence |]. split.
  - rewrite O, O0, <- app_assoc. reflexivity.
  - eapply calls_ext_trans; [| exact C].
    eapply calls_ext_weaken; [| exact C0].
    intros c Hc. unfold is_discovery. rewrite Hc. now rewrite orb_true_r.
Qed.

(** A run without [-n], on [literal_safe] targets: the DNS list is looked
    up, the snapshot is printed unless [-q] was given, and the targets are
    probed. *)
Lemma main_probing_run args s :
  no_ping args = false ->
  Forall (literal_safe host)
    (discovered_dns host (world s) ++ [public_dns] ++ ping_or_empty args) ->
  exists pre s1 rd pst ru s',
    main host args s = (Ret 0%Z, s') /\
    (if quiet args
     then s1 = after_dns host (welcomed s) /\ pre = []
     else print_network_info host (after_dns host (welcomed s)) = (Ret tt, s1) /\
          exists l d p, pre = [""; l; d; p]) /\
    print_pings host (Some (ping_or_empty args)) (discovered_dns host (world s)) s1
      = (Ret tt, s') /\
    map fst rd = discovered_dns host (world s) /\
    map (fun x : UserResult => fst (fst x)) ru = ping_or_empty args /\
    probes s' = probes s ++ discovered_dns host (world s) ++ [public_dns]
                ++ ping_or_empty args /\
    stdout s' = stdout s ++ [""; WELCOME] ++ pre ++ ping_report rd pst ru /\
    calls_ext (if quiet args then is_probe_call else is_any_call)
      (after_dns host (welcomed s)) s' /\
    Forall (user_result_ok host) ru /\
    Forall (fun t => In (call_inet_aton t) (calls s')) (ping_or_empty args).
Proof.
  intros Hn Hsafe. rewrite main_start, Hn.
  destruct (welcomed_dns_frame s) as [P0 [O0 C0]].
  set (s0 := after_dns host (welcomed s)) in *.
  assert (I : exists pre s1,
             (if negb (quiet args) then print_network_info host else ret tt) s0
             = (Ret tt, s1) /\
             (if quiet args
              then s1 = s0 /\ pre = []
              else print_network_info host s0 = (Ret tt, s1) /\
                   exists l d p, pre = [""; l; d; p]) /\
             probes s1 = probes s0 /\ stdout s1 = stdout s0 ++ pre /\
             calls_ext (if quiet args then is_probe_call else is_any_call) s0 s1).
  { destruct (quiet args); simpl.
    - exists [], s0. unfold ret. rewrite app_nil_r. auto 10 with frames.
    - destruct (print_network_info_total host s0) as [l [d [p [s1 [E [P [O C]]]]]]].
      exists [""; l; d; p], s1. repeat split; eauto.
      eapply calls_ext_weaken; [| exact C].
      intros c Hc. unfold is_any_call. now rewrite Hc. }
  destruct I as [pre [s1 [E1 [K [P1 [O1 C1]]]]]].
  destruct (print_pings_spec host (ping_or_empty args) (discovered_dns host (world s))
              s1 Hsafe)
    as [rd [pst [ru [s' [E2 [Hd [Hu [P2 [O2 [C2 [F2 A2]]]]]]]]]]].
  exists pre, s1, rd, pst, ru, s'.
  rewrite (bind_run _ _ _ _ _ E1), (bind_run _ _ _ _ _ E2).
  split; [reflexivity |]. split; [exact K |]. split; [exact E2 |].
  split; [exact Hd |]. split; [exact Hu |].
  split; [rewrite P2, P1, P0; reflexivity |].
  split; [rewrite O2, O1, O0, <- !app_assoc; reflexivity |].
  split; [| split; assumption].
  eapply calls_ext_trans; [exact C1 |].
  eapply calls_ext_weaken; [| exact C2].
  intros c Hc. destruct (quiet args); [exact Hc |].
  unfold is_any_call. rewrite Hc. now rewrite orb_true_r.
Qed.

End MainFacts.

(* ------------------------------------------------------------------ *)
(** ** A laboratory host *)

(** A small deterministic host to run the program on.  The world carries no
    information.  The literal parsers behave like CPython's: a string with
    an embedded NUL character is refused with [ValueError] before any
    parsing, any other string that is not a literal with [OSError]. *)
Module Lab.

Definition nul : string := String Ascii.zero EmptyString.

(** A target with a NUL character in it. *)
Definition nul_target : string := "a" ++ nul ++ "b".

(** The double quote. *)
Definition dq : string := String (ascii_of_nat 34) EmptyString.

Definition s0 : State unit := mkState tt [] [] [].

Definition lab_inet_aton (t : string) (w : unit) : result unit * unit :=
  (if contains nul t then Raise (Exception "ValueError" "embedded null character")
   else if (t =? "192.0.2.53") || (t =? "8.8.8.8") then Ret tt
   else Raise (OSError "illegal IP address string passed to inet_aton"), w).

Definition lab_inet_pton6 (t : string) (w : unit) : result unit * unit :=
  (if contains nul t then Raise (Exception "ValueError" "embedded null character")
   else if t =? "2001:db8::1" then Ret tt
   else Raise (OSError "illegal IP address string passed to inet_pton"), w).

Definition lab_gethostbyname (t : string) (w : unit) : result string * unit :=
  (if t =? "example.com" then Ret "93.184.216.34"
   else Raise (OSError "[Errno -2] Name or service not known"), w).

Definition dst_of (pkt : Packet) : string :=
  match pkt with
  | IP d :: _ | IPv6 d :: _ => d
  | _ => ""
  end.

(** A network where 8.8.8.8 and 2001:db8::1 answer the echo, 93.184.216.34
    answers "destination unreachable" and nobody else answers. *)
Definition wire_up (pkt : Packet) : result (option Packet) :=
  if dst_of pkt =? "8.8.8.8" then Ret (Some [IP "10.0.0.2"; ICMP 0])
  else if dst_of pkt =? "2001:db8::1" then Ret (Some [IPv6 "fd00::2"; ICMPv6EchoReply])
  else if dst_of pkt =? "93.184.216.34" then Ret (Some [IP "10.0.0.2"; ICMP 3])
  else Ret None.

(** A process that may not open raw sockets. *)
Definition wire_denied (pkt : Packet) : result (option Packet) :=
  Raise (PermissionError "[Errno 1] Operation not permitted").

Definition http_down (url : string) : result Response :=
  Raise (Exception "ConnectionError" "network is unreachable").

(** The two JSON services are down; the plain-text service answers 200 with
    an empty body. *)
Definition http_empty_text (url : string) : result Response :=
  if url =? "https://ifconfig.me/ip"
  then Ret (mkResponse 200 "" (Raise (Exception "JSONDecodeError" "Expecting value")))
  else Raise (Exception "ConnectionError" "network is unreachable").

(** The first service is down, the second answers. *)
Definition http_second (url : string) : result Response :=
  if url =? "https://api64.ipify.org?format=json"
  then Ret (mkResponse 200 ("{" ++ dq ++ "ip" ++ dq ++ ":" ++ dq ++ "203.0.113.7" ++ dq ++ "}")
              (Ret (JDict [("ip", JStr "203.0.113.7")])))
  else Raise (Exception "ConnectionError" "network is unreachable").

Definition lab (scapy : bool) (wire : Packet -> result (option Packet))
    (http : string -> result Response) : Host unit :=
  {| SCAPY_AVAILABLE := scapy;
     DNSPYTHON_AVAILABLE := true;
     REQUESTS_AVAILABLE := true;
     inet_aton := lab_inet_aton;
     inet_pton6 := lab_inet_pton6;
     gethostbyname := lab_gethostbyname;
     scapy_build := fun _ w => (Ret tt, w);
     sr1 := fun pkt _ w => (wire pkt, w);
     udp_sockname := fun _ _ w => (Ret "10.0.0.2", w);
     nameservers := fun w => (Ret ["192.0.2.53"], w);
     requests_get := fun url _ w => (http url, w) |}.

(** The same host with no resolver configured. *)
Definition lab_no_dns (scapy : bool) (wire : Packet -> result (option Packet))
    (http : string -> result Response) : Host unit :=
  {| SCAPY_AVAILABLE := scapy;
     DNSPYTHON_AVAILABLE := true;
     REQUESTS_AVAILABLE := true;
     inet_aton := lab_inet_aton;
     inet_pton6 := lab_inet_pton6;
     gethostbyname := lab_gethostbyname;
     scapy_build := fun _ w => (Ret tt, w);
     sr1 := fun pkt _ w => (wire pkt, w);
     udp_sockname := fun _ _ w => (Ret "10.0.0.2", w);
     nameservers := fun w => (Ret [], w);
     requests_get := fun url _ w => (http url, w) |}.

Lemma lab_literal_safe scapy wire http t :
  contains nul t = false -> literal_safe (lab scapy wire http) t.
Proof.
  intros Hn w e. simpl. unfold lab_inet_aton, lab_inet_pton6. rewrite Hn.
  split.
  - destruct ((t =? "192.0.2.53") || (t =? "8.8.8.8")); simpl; intros H;
      inversion H; reflexivity.
  - destruct (t =? "2001:db8::1"); simpl; intros H; inversion H; reflexivity.
Qed.

Lemma lab_no_dns_literal_safe scapy wire http t :
  contains nul t = false -> literal_safe (lab_no_dns scapy wire http) t.
Proof.
  intros Hn w e. simpl. unfold lab_inet_aton, lab_inet_pton6. rewrite Hn.
  split.
  - destruct ((t =? "192.0.2.53") || (t =? "8.8.8.8")); simpl; intros H;
      inversion H; reflexivity.
  - destruct (t =? "2001:db8::1"); simpl; intros H; inversion H; reflexivity.
Qed.

Lemma lab_unresolvable scapy wire http :
  unresolvable (lab scapy wire http) "example.invalid".
Proof.
  intros w. simpl. repeat split; eexists; (split || idtac); reflexivity.
Qed.

End Lab.

(* ------------------------------------------------------------------ *)
(** ** The probe: capability, classification *)

Section ProbeClaims.

Context {W : Type} (host : Host W).

(** C6.  When scapy is not available, [scapy_ping_once] answers [NO_SCAPY]
    for every target and timeout at once: the world is untouched, no library
    call is made (so nothing is resolved and nothing is sent), nothing is
    printed.  The target plays no part, so this is also the answer for a
    target that would not resolve. *)
Theorem no_capability_precedes_resolution :
  SCAPY_AVAILABLE host = false ->
  forall dst timeout s,
  exists s',
    scapy_ping_once host dst timeout s = (Ret NO_SCAPY, s') /\
    world s' = world s /\ calls s' = calls s /\ stdout s' = stdout s /\
    probes s' = probes s ++ [dst].
Proof.
  intros Hav dst timeout s. exists (entered dst s).
  rewrite scapy_ping_once_unavailable by exact Hav. repeat split.
Qed.

(** The reply the program takes for a success: for an IPv4 target the first
    ICMP layer of the answer has type 0, for an IPv6 target the answer has
    an ICMPv6 echo-reply layer. *)
Definition expected_reply (ip : string) (a : Packet) : Prop :=
  if contains ":" ip then In ICMPv6EchoReply a
  else getlayer is_ICMP a = Some (ICMP 0).

Lemma haslayer_echo_reply6 a :
  haslayer is_ICMPv6EchoReply a = true <-> In ICMPv6EchoReply a.
Proof.
  unfold haslayer. rewrite existsb_exists. split.
  - intros [l [Hin Hl]]. destruct l; try discriminate. exact Hin.
  - intros Hin. exists ICMPv6EchoReply. now split.
Qed.

(** What the [try] body answers when [sr1] returns. *)
Lemma send_echo_answered ip timeout s ans :
  answer host ip timeout s = Ret ans ->
  exists st,
    send_echo host ip timeout s = (Ret st, sent host ip timeout s) /\
    (ans = None -> st = FAILED) /\
    (forall a, ans = Some a -> expected_reply ip a -> st = OK) /\
    (forall a, ans = Some a -> ~ expected_reply ip a -> st = FAILED).
Proof.
  intros Ha. rewrite send_echo_run, Ha.
  unfold reply_status, expected_reply, _is_ipv6.
  destruct ans as [a|].
  2:{ exists FAILED. split; [reflexivity |]. repeat split; intros; discriminate. }
  destruct (contains ":" ip).
  - destruct (haslayer is_ICMPv6EchoReply a) eqn:Hl;
      eexists; (split; [reflexivity |]); repeat split; try discriminate;
      intros a' Ha' He; inversion Ha'; subst a'.
    + exfalso. apply He. now apply haslayer_echo_reply6.
    + apply haslayer_echo_reply6 in He. congruence.
  - destruct (haslayer is_ICMP a) eqn:Hl.
    + destruct (haslayer_icmp_type a Hl) as [t [Ht Hg]]. rewrite Ht.
      destruct (t =? 0)%Z eqn:Hz;
        eexists; (split; [reflexivity |]); repeat split; try discriminate;
        intros a' Ha' He; inversion Ha'; subst a'.
      * exfalso. apply He. apply Z.eqb_eq in Hz. now subst t.
      * rewrite Hg in He. inversion He; subst t. discriminate.
    + eexists. split; [reflexivity |].
      repeat split; try discriminate;
        intros a' Ha' He; inversion Ha'; subst a'; try reflexivity.
      exfalso. unfold haslayer in Hl. unfold getlayer in He.
      apply find_some in He as [Hin He'].
      assert (T : existsb is_ICMP a = true) by (apply existsb_exists; eauto).
      congruence.
Qed.

(** C7.  A probe that reaches the send step, that is: scapy is available,
    the target resolved to [ip], and [sr1] returned [ans].  Exactly one
    echo request goes out, an IPv6 one when [ip] contains a colon and an
    IPv4 one (ICMP type 8) otherwise; no answer within the timeout gives
    [FAILED], an answer of the expected echo-reply kind gives [OK], any
    other answer gives [FAILED]. *)
Theorem probe_classifies_reply dst timeout s name ip s1 ans :
  SCAPY_AVAILABLE host = true ->
  _resolve_target host dst (entered dst s) = (Ret (name, Some ip), s1) ->
  answer host ip timeout s1 = Ret ans ->
  exists st s',
    scapy_ping_once host dst timeout s = (Ret st, s') /\
    calls s' = calls s1
               ++ [call_sr1 (if contains ":" ip
                             then [IPv6 ip; ICMPv6EchoRequest]
                             else [IP ip; ICMP 8]) timeout] /\
    (ans = None -> st = FAILED) /\
    (forall a, ans = Some a -> expected_reply ip a -> st = OK) /\
    (forall a, ans = Some a -> ~ expected_reply ip a -> st = FAILED).
Proof.
  intros Hav R Ha.
  destruct (send_echo_answered ip timeout s1 ans Ha) as [st [E K]].
  exists st, (sent host ip timeout s1).
  rewrite (scapy_ping_once_resolved _ _ _ _ _ _ _ Hav R).
  unfold try_except. rewrite E. split; [reflexivity |]. split; [| exact K].
  rewrite (sent_calls_answered host ip timeout s1 ans Ha).
  unfold echo_request, _is_ipv6. now destruct (contains ":" ip).
Qed.

(** When the send step fails instead, the handlers give [NO_PERM] for a
    [PermissionError] and for an [OSError] whose text has "Operation not
    permitted", and [ERROR] for anything else; never [FAILED]. *)
Lemma send_failure_classified dst timeout s name ip s1 e :
  SCAPY_AVAILABLE host = true ->
  _resolve_target host dst (entered dst s) = (Ret (name, Some ip), s1) ->
  answer host ip timeout s1 = Raise e ->
  scapy_ping_once host dst timeout s
  = (Ret (if isinstance_PermissionError e then NO_PERM
          else if isinstance_OSError e && contains "Operation not permitted" (str_exn e)
               then NO_PERM else ERROR),
     sent host ip timeout s1).
Proof.
  intros Hav R Ha. rewrite (scapy_ping_once_resolved _ _ _ _ _ _ _ Hav R).
  unfold try_except. rewrite send_echo_run, Ha. unfold any_Exception.
  apply ping_handler_run.
Qed.

End ProbeClaims.

(** C6 at work: without scapy even a name that cannot resolve gets
    [NO_SCAPY], and the resolver is never asked. *)
Lemma no_capability_witness :
  SCAPY_AVAILABLE (Lab.lab false Lab.wire_up Lab.http_down) = false /\
  exists s',
    scapy_ping_once (Lab.lab false Lab.wire_up Lab.http_down)
      "example.invalid" ping_timeout Lab.s0 = (Ret NO_SCAPY, s') /\
    world s' = world Lab.s0 /\ calls s' = calls Lab.s0 /\
    stdout s' = stdout Lab.s0 /\
    probes s' = probes Lab.s0 ++ ["example.invalid"].
Proof.
  split; [reflexivity |].
  apply (no_capability_precedes_resolution
           (Lab.lab false Lab.wire_up Lab.http_down) eq_refl).
Defined.

(** C7 at work: 8.8.8.8 answers with an ICMP layer of type 0. *)
Lemma probe_classifies_reply_witness :
  exists st s',
    scapy_ping_once (Lab.lab true Lab.wire_up Lab.http_down)
      "8.8.8.8" ping_timeout Lab.s0 = (Ret st, s') /\
    calls s' = [call_inet_aton "8.8.8.8"]
               ++ [call_sr1 (if contains ":" "8.8.8.8"
                             then [IPv6 "8.8.8.8"; ICMPv6EchoRequest]
                             else [IP "8.8.8.8"; ICMP 8]) ping_timeout] /\
    (Some [IP "10.0.0.2"; ICMP 0] = None -> st = FAILED) /\
    (forall a, Some [IP "10.0.0.2"; ICMP 0] = Some a ->
               expected_reply "8.8.8.8" a -> st = OK) /\
    (forall a, Some [IP "10.0.0.2"; ICMP 0] = Some a ->
               ~ expected_reply "8.8.8.8" a -> st = FAILED).
Proof.
  apply (probe_classifies_reply (Lab.lab true Lab.wire_up Lab.http_down)
           "8.8.8.8" ping_timeout Lab.s0 "8.8.8.8" "8.8.8.8"
           (mkState tt [call_inet_aton "8.8.8.8"] ["8.8.8.8"] [])
           (Some [IP "10.0.0.2"; ICMP 0]));
    reflexivity.
Defined.

(* ------------------------------------------------------------------ *)
(** ** The orchestrator: modes and order *)

Section RunClaims.

Context {W : Type} (host : Host W).


Lemma probe_is_no_discovery c : is_probe_call c = true -> is_discovery c = false.
Proof. now destruct c. Qed.


(** The run with an empty DNS list, for [literal_safe] targets:
    [print_pings] probes no DNS server, prints the placeholder line and goes
    on: the public resolver is probed, then every user target is resolved
    and probed, in the order given, and each gets its line. *)
Theorem empty_dns_list_does_not_stop_the_run user s :
  Forall (literal_safe host) (public_dns :: user) ->
  exists pst ru s',
    print_pings host (Some user) [] s = (Ret tt, s') /\
    probes s' = probes s ++ public_dns :: user /\
    map (fun x : UserResult => fst (fst x)) ru = user /\
    stdout s' = stdout s
                ++ [""; "Pinging ..."; "default DNS Server <none found>: SKIPPED";
                    public_line pst]
                ++ user_lines ru /\
    Forall (fun t => In (call_inet_aton t) (calls s')) user.
Proof.
  intros Hsafe.
  destruct (print_pings_spec host user [] s Hsafe)
    as [rd [pst [ru [s' [E [Hd [Hu [P [O [_ [_ A]]]]]]]]]]].
  exists pst, ru, s'. split; [exact E |]. split; [exact P |].
  split; [exact Hu |]. split; [| exact A].
  destruct rd; [| discriminate]. exact O.
Qed.

End RunClaims.


(** The same at work: no resolver configured, two user targets. *)
Lemma empty_dns_list_witness :
  Forall (literal_safe (Lab.lab_no_dns true Lab.wire_up Lab.http_down))
    (public_dns :: ["example.com"; "example.invalid"]) /\
  exists pst ru s',
    print_pings (Lab.lab_no_dns true Lab.wire_up Lab.http_down)
      (Some ["example.com"; "example.invalid"]) [] Lab.s0 = (Ret tt, s') /\
    probes s' = probes Lab.s0 ++ public_dns :: ["example.com"; "example.invalid"] /\
    map (fun x : UserResult => fst (fst x)) ru = ["example.com"; "example.invalid"] /\
    stdout s' = stdout Lab.s0
                ++ [""; "Pinging ..."; "default DNS Server <none found>: SKIPPED";
                    public_line pst]
                ++ user_lines ru /\
    Forall (fun t => In (call_inet_aton t) (calls s'))
      ["example.com"; "example.invalid"].
Proof.
  assert (H : Forall (literal_safe (Lab.lab_no_dns true Lab.wire_up Lab.http_down))
                (public_dns :: ["example.com"; "example.invalid"])).
  { repeat constructor; apply Lab.lab_no_dns_literal_safe; reflexivity. }
  split; [exact H |].
  apply (empty_dns_list_does_not_stop_the_run
           (Lab.lab_no_dns true Lab.wire_up Lab.http_down)
           ["example.com"; "example.invalid"] Lab.s0 H).
Defined.

(* ------------------------------------------------------------------ *)
(** ** Runs that probe *)

Section ProbingRunClaims.

Context {W : Type} (host : Host W).

(** C2 (amended).  A run with [-q] and without [-n], on [literal_safe]
    targets: of the snapshot only the DNS list is looked up, once; the local
    and the public address are not looked up; no snapshot line is printed;
    the targets probed are the DNS servers, the public resolver and the
    user targets in this order, and the run without [-q] from the same state
    probes the same targets in the same order. *)
Theorem quiet_run_looks_up_dns_only args s :
  no_ping args = false ->
  quiet args = true ->
  Forall (literal_safe host)
    (discovered_dns host (world s) ++ [public_dns] ++ ping_or_empty args) ->
  exists rd pst ru s',
    main host args s = (Ret 0%Z, s') /\
    filter is_discovery (calls s')
    = filter is_discovery (calls s)
      ++ (if DNSPYTHON_AVAILABLE host then [call_nameservers] else []) /\
    map fst rd = discovered_dns host (world s) /\
    map (fun x : UserResult => fst (fst x)) ru = ping_or_empty args /\
    stdout s' = stdout s ++ [""; WELCOME] ++ ping_report rd pst ru /\
    probes s' = probes s ++ discovered_dns host (world s) ++ [public_dns]
                ++ ping_or_empty args /\
    exists s'',
      main host (mkArgs false false (ping args)) s = (Ret 0%Z, s'') /\
      probes s'' = probes s'.
Proof.
  intros Hn Hq Hsafe.
  destruct (main_probing_run host args s Hn Hsafe)
    as [pre [s1 [rd [pst [ru [s' [E [K [_ [Hd [Hu [P [O [C _]]]]]]]]]]]]]].
  rewrite Hq in K, C. destruct K as [-> ->].
  exists rd, pst, ru, s'. split; [exact E |]. split.
  { rewrite (calls_ext_filter _ _ _ _ probe_is_no_discovery C).
    unfold after_dns. destruct (DNSPYTHON_AVAILABLE host); simpl.
    - now rewrite filter_app.
    - now rewrite app_nil_r. }
  split; [exact Hd |]. split; [exact Hu |]. split; [exact O |].
  split; [exact P |].
  destruct (main_probing_run host (mkArgs false false (ping args)) s eq_refl Hsafe)
    as [pre' [s1' [rd' [pst' [ru' [s'' [E' [_ [_ [_ [_ [P' _]]]]]]]]]]]].
  exists s''. split; [exact E' |]. rewrite P', P. reflexivity.
Qed.

(** C3 (amended).  A run without [-n], on [literal_safe] targets, returns 0;
    it probes the discovered DNS servers in their order, then 8.8.8.8, then
    the user targets in their order, and after the banner (and the snapshot,
    if any) it prints one line per target in that order.  When scapy is
    available, the DNS list is 192.0.2.53 and the one user target is a name
    that cannot resolve, the report is the line of 192.0.2.53, the line of
    8.8.8.8 and "example.invalid: RESOLVE_FAIL". *)
Theorem probe_and_report_order args s :
  no_ping args = false ->
  Forall (literal_safe host)
    (discovered_dns host (world s) ++ [public_dns] ++ ping_or_empty args) ->
  exists pre rd pst ru s',
    main host args s = (Ret 0%Z, s') /\
    (pre = [] \/ exists l d p, pre = [""; l; d; p]) /\
    map fst rd = discovered_dns host (world s) /\
    map (fun x : UserResult => fst (fst x)) ru = ping_or_empty args /\
    probes s' = probes s ++ discovered_dns host (world s) ++ [public_dns]
                ++ ping_or_empty args /\
    stdout s' = stdout s ++ [""; WELCOME] ++ pre ++ ping_report rd pst ru /\
    (SCAPY_AVAILABLE host = true ->
     discovered_dns host (world s) = ["192.0.2.53"] ->
     ping_or_empty args = ["example.invalid"] ->
     unresolvable host "example.invalid" ->
     exists st1,
       ping_report rd pst ru
       = [""; "Pinging ..."; dns_line "192.0.2.53" st1; public_line pst;
          "example.invalid: RESOLVE_FAIL"]).
Proof.
  intros Hn Hsafe.
  destruct (main_probing_run host args s Hn Hsafe)
    as [pre [s1 [rd [pst [ru [s' [E [K [_ [Hd [Hu [P [O [_ [F _]]]]]]]]]]]]]]].
  exists pre, rd, pst, ru, s'. split; [exact E |]. split.
  { destruct (quiet args); [left; apply K | right; apply K]. }
  split; [exact Hd |]. split; [exact Hu |]. split; [exact P |].
  split; [exact O |].
  intros Hav Hdns Huser U. rewrite Hdns in Hd. rewrite Huser in Hu.
  destruct rd as [|[ns st1] [|? ?]]; try discriminate.
  destruct ru as [|[[t ip] st] [|? ?]]; try discriminate.
  simpl in Hd, Hu. inversion Hd; inversion Hu; subst ns t.
  inversion F as [|? ? Fx _]; subst.
  destruct (Fx U) as [Hip Hst]. simpl in Hip, Hst. rewrite Hav in Hst. subst ip st.
  exists st1. reflexivity.
Qed.

(** C5 (amended).  One turn of the loop over the user targets, for a
    [literal_safe] target: the target is resolved, for the report line; then
    [scapy_ping_once] is run on the target as given, and the line printed
    carries its status.  When scapy is available the probe resolves the
    target again: if that gives an address, the echo request is built for
    this address and, once built, sent to it, once (if the constructors
    raise, nothing is sent and the status is [NO_PERM] or [ERROR]); if it
    gives none, the status is [RESOLVE_FAIL] and nothing is sent.  When
    scapy is not available the status is [NO_SCAPY], and the probe neither
    resolves nor sends. *)
Theorem user_target_resolved_then_probed t rest s :
  literal_safe host t ->
  exists ip1 s1 ip2 s2 st s3,
    _resolve_target host t s = (Ret (t, ip1), s1) /\
    _resolve_target host t (entered t s1) = (Ret (t, ip2), s2) /\
    scapy_ping_once host t ping_timeout s1 = (Ret st, s3) /\
    ping_user_targets host (t :: rest) s
    = ping_user_targets host rest (printed (user_line t ip1 st) s3) /\
    if SCAPY_AVAILABLE host then
      match ip2 with
      | Some a =>
          match fst (scapy_build host (echo_request a) (world s2)) with
          | Ret _ => calls s3 = calls s2 ++ [call_sr1 (echo_request a) ping_timeout]
          | Raise _ => calls s3 = calls s2 /\ (st = NO_PERM \/ st = ERROR)
          end
      | None => st = RESOLVE_FAIL /\ s3 = s2
      end
    else st = NO_SCAPY /\ s3 = entered t s1.
Proof.
  intros Hsafe.
  destruct (resolve_total host t Hsafe s) as [ip1 [s1 R1]].
  destruct (resolve_total host t Hsafe (entered t s1)) as [ip2 [s2 R2]].
  destruct (scapy_ping_once_total host t Hsafe ping_timeout s1) as [st [s3 E]].
  exists ip1, s1, ip2, s2, st, s3.
  split; [exact R1 |]. split; [exact R2 |]. split; [exact E |]. split.
  { simpl. rewrite (bind_run _ _ _ _ _ R1), (bind_run _ _ _ _ _ E).
    rewrite (bind_run _ _ _ _ _ (print_run _ _)). reflexivity. }
  destruct (SCAPY_AVAILABLE host) eqn:Hav.
  - destruct ip2 as [a|].
    + rewrite (scapy_ping_once_resolved _ _ _ _ _ _ _ Hav R2) in E.
      unfold try_except in E. rewrite send_echo_run in E.
      pose proof (sent_calls host a ping_timeout s2) as C.
      unfold answer in E.
      destruct (fst (scapy_build host (echo_request a) (world s2))) as [[]|eb];
        simpl in C.
      * destruct (fst (sr1 host _ _ _)) as [ans|e].
        -- destruct (reply_status_returns a ans) as [st' [E' _]].
           rewrite E' in E. inversion E; subst. exact C.
        -- unfold any_Exception in E. rewrite ping_handler_run in E.
           inversion E; subst. exact C.
      * unfold any_Exception in E. rewrite ping_handler_run in E.
        inversion E; subst. rewrite app_nil_r in C. split; [exact C |].
        destruct (isinstance_PermissionError eb); [now left |].
        destruct (isinstance_OSError eb && contains _ _); [now left | now right].
    + rewrite (scapy_ping_once_unresolved _ _ _ _ _ _ Hav R2) in E.
      inversion E; subst. auto.
  - rewrite scapy_ping_once_unavailable in E by exact Hav.
    inversion E; subst. auto.
Qed.

End ProbingRunClaims.

(* ------------------------------------------------------------------ *)
(** ** Runs on the laboratory host *)

Module LabRuns.

Import Lab.

Definition quiet_args : Args := mkArgs false true None.
Definition plain_args : Args := mkArgs false false None.
Definition invalid_args : Args := mkArgs false false (Some ["example.invalid"]).

(** C2, as stated, fails.  The run with [-q] makes one discovery call, the
    DNS lookup: the local address and the public address are never looked
    up, while the run without [-q] looks both up. *)
Lemma quiet_run_skips_addresses :
  calls (snd (main (lab true wire_up http_down) quiet_args s0))
  = [ call_nameservers;
      call_inet_aton "192.0.2.53";
      call_sr1 (echo_request "192.0.2.53") ping_timeout;
      call_inet_aton "8.8.8.8";
      call_sr1 (echo_request "8.8.8.8") ping_timeout ] /\
  existsb is_udp_sockname
    (calls (snd (main (lab true wire_up http_down) quiet_args s0))) = false /\
  existsb is_requests_get
    (calls (snd (main (lab true wire_up http_down) quiet_args s0))) = false /\
  existsb is_udp_sockname
    (calls (snd (main (lab true wire_up http_down) plain_args s0))) = true /\
  existsb is_requests_get
    (calls (snd (main (lab true wire_up http_down) plain_args s0))) = true.
Proof. repeat split; vm_compute; reflexivity. Qed.

(** C3, as stated, fails.  Without scapy the line of the name that cannot
    resolve says [NO_SCAPY], not [RESOLVE_FAIL]. *)
Lemma report_without_scapy :
  discovered_dns (lab false wire_up http_down) tt = ["192.0.2.53"] /\
  stdout (snd (main (lab false wire_up http_down) invalid_args s0))
  = [ ""; WELCOME;
      ""; "Local IP Address: 10.0.0.2"; "DNS Server(s): 192.0.2.53";
      "Public IP Address: <could not determine>";
      ""; "Pinging ...";
      "default DNS Server 192.0.2.53: NO_SCAPY";
      "public DNS Server 8.8.8.8: NO_SCAPY";
      "example.invalid: NO_SCAPY" ] /\
  last (stdout (snd (main (lab false wire_up http_down) invalid_args s0))) ""
  <> "example.invalid: RESOLVE_FAIL".
Proof. repeat split; vm_compute; try reflexivity. discriminate. Qed.

(** Without scapy a user target whose resolution fails is reported with
    [NO_SCAPY], not with [RESOLVE_FAIL]. *)
Lemma unresolved_target_without_scapy :
  fst (_resolve_target (lab false wire_up http_down) "example.invalid" s0)
  = Ret ("example.invalid", None) /\
  stdout (snd (ping_user_targets (lab false wire_up http_down) ["example.invalid"] s0))
  = ["example.invalid: NO_SCAPY"] /\
  stdout (snd (ping_user_targets (lab false wire_up http_down) ["example.invalid"] s0))
  <> ["example.invalid: RESOLVE_FAIL"].
Proof. repeat split; vm_compute; try reflexivity. discriminate. Qed.

Lemma lab_targets_safe scapy wire http :
  Forall (literal_safe (lab scapy wire http))
    ["192.0.2.53"; "8.8.8.8"; "example.invalid"].
Proof. repeat constructor; apply lab_literal_safe; reflexivity. Qed.

End LabRuns.

(** C2 (amended) at work: [-q -p example.invalid]. *)
Lemma quiet_run_witness :
  no_ping (mkArgs false true (Some ["example.invalid"])) = false /\
  quiet (mkArgs false true (Some ["example.invalid"])) = true /\
  exists rd pst ru s',
    main (Lab.lab true Lab.wire_up Lab.http_down)
      (mkArgs false true (Some ["example.invalid"])) Lab.s0 = (Ret 0%Z, s') /\
    filter is_discovery (calls s') = [] ++ [call_nameservers] /\
    map fst rd = ["192.0.2.53"] /\
    map (fun x : UserResult => fst (fst x)) ru = ["example.invalid"] /\
    stdout s' = [] ++ [""; WELCOME] ++ ping_report rd pst ru /\
    probes s' = [] ++ ["192.0.2.53"] ++ [public_dns] ++ ["example.invalid"] /\
    exists s'',
      main (Lab.lab true Lab.wire_up Lab.http_down)
        (mkArgs false false (Some ["example.invalid"])) Lab.s0 = (Ret 0%Z, s'') /\
      probes s'' = probes s'.
Proof.
  split; [reflexivity |]. split; [reflexivity |].
  apply (quiet_run_looks_up_dns_only (Lab.lab true Lab.wire_up Lab.http_down)
           (mkArgs false true (Some ["example.invalid"])) Lab.s0 eq_refl eq_refl
           (LabRuns.lab_targets_safe true Lab.wire_up Lab.http_down)).
Defined.

(** C3 (amended) at work: the scenario of the specification, with scapy. *)
Lemma probe_and_report_order_witness :
  exists pre rd pst ru s',
    main (Lab.lab true Lab.wire_up Lab.http_down) LabRuns.invalid_args Lab.s0
    = (Ret 0%Z, s') /\
    (pre = [] \/ exists l d p, pre = [""; l; d; p]) /\
    map fst rd = ["192.0.2.53"] /\
    map (fun x : UserResult => fst (fst x)) ru = ["example.invalid"] /\
    probes s' = [] ++ ["192.0.2.53"] ++ [public_dns] ++ ["example.invalid"] /\
    stdout s' = [] ++ [""; WELCOME] ++ pre ++ ping_report rd pst ru /\
    exists st1,
      ping_report rd pst ru
      = [""; "Pinging ..."; dns_line "192.0.2.53" st1; public_line pst;
         "example.invalid: RESOLVE_FAIL"].
Proof.
  destruct (probe_and_report_order (Lab.lab true Lab.wire_up Lab.http_down)
              LabRuns.invalid_args Lab.s0 eq_refl
              (LabRuns.lab_targets_safe true Lab.wire_up Lab.http_down))
    as [pre [rd [pst [ru [s' [E [K [Hd [Hu [P [O X]]]]]]]]]]].
  exists pre, rd, pst, ru, s'. repeat (split; [assumption |]).
  apply X; try reflexivity. apply Lab.lab_unresolvable.
Defined.

(** C5 (amended) at work: a name that cannot resolve, with scapy. *)
Lemma user_target_witness :
  literal_safe (Lab.lab true Lab.wire_up Lab.http_down) "example.invalid" /\
  exists ip1 s1 ip2 s2 st s3,
    _resolve_target (Lab.lab true Lab.wire_up Lab.http_down) "example.invalid" Lab.s0
    = (Ret ("example.invalid", ip1), s1) /\
    _resolve_target (Lab.lab true Lab.wire_up Lab.http_down) "example.invalid"
      (entered "example.invalid" s1) = (Ret ("example.invalid", ip2), s2) /\
    scapy_ping_once (Lab.lab true Lab.wire_up Lab.http_down) "example.invalid"
      ping_timeout s1 = (Ret st, s3) /\
    ping_user_targets (Lab.lab true Lab.wire_up Lab.http_down) ["example.invalid"] Lab.s0
    = ping_user_targets (Lab.lab true Lab.wire_up Lab.http_down) []
        (printed (user_line "example.invalid" ip1 st) s3) /\
    match ip2 with
    | Some a => calls s3
                = calls s2
                  ++ [call_sr1 (echo_request a) ping_timeout]
    | None => st = RESOLVE_FAIL /\ s3 = s2
    end.
Proof.
  assert (H : literal_safe (Lab.lab true Lab.wire_up Lab.http_down) "example.invalid")
    by (apply Lab.lab_literal_safe; reflexivity).
  split; [exact H |].
  apply (user_target_resolved_then_probed (Lab.lab true Lab.wire_up Lab.http_down)
           "example.invalid" [] Lab.s0 H).
Defined.

(* ------------------------------------------------------------------ *)
(** ** The resolver, case by case *)

Section ResolverCases.

Context {W : Type} (host : Host W).

(** The state after one logged call that left the world [w]. *)
Definition called (c : Call) (w : W) (s : State W) : State W :=
  mkState w (calls s ++ [c]) (probes s) (stdout s).

(** An IPv4 literal is its own address; nothing else is asked. *)
Lemma resolve_ipv4_literal t s :
  fst (inet_aton host t (world s)) = Ret tt ->
  _resolve_target host t s
  = (Ret (t, Some t), called (call_inet_aton t) (snd (inet_aton host t (world s))) s).
Proof.
  intros H. unfold _resolve_target, literal_attempt, bind, try_except, ret.
  rewrite extern_run, H. reflexivity.
Qed.

(** So is an IPv6 literal, once the IPv4 parser refused it with [OSError]. *)
Lemma resolve_ipv6_literal t s e4 :
  fst (inet_aton host t (world s)) = Raise e4 ->
  isinstance_OSError e4 = true ->
  fst (inet_pton6 host t (snd (inet_aton host t (world s)))) = Ret tt ->
  fst (_resolve_target host t s) = Ret (t, Some t).
Proof.
  intros H4 O4 H6. unfold _resolve_target, literal_attempt, bind, try_except, ret.
  rewrite extern_run, H4. simpl. rewrite O4. simpl.
  rewrite extern_run. simpl. rewrite H6. reflexivity.
Qed.

(** Once both parsers refused the string with [OSError], the answer is what
    [gethostbyname] gives, and none if it raises anything at all. *)
Lemma resolve_hostname t s e4 e6 :
  fst (inet_aton host t (world s)) = Raise e4 ->
  isinstance_OSError e4 = true ->
  fst (inet_pton6 host t (snd (inet_aton host t (world s)))) = Raise e6 ->
  isinstance_OSError e6 = true ->
  fst (_resolve_target host t s)
  = Ret (t, match fst (gethostbyname host t
                         (snd (inet_pton6 host t (snd (inet_aton host t (world s))))))
            with
            | Ret ip => Some ip
            | Raise _ => None
            end).
Proof.
  intros H4 O4 H6 O6. unfold _resolve_target, literal_attempt, bind, try_except, ret.
  rewrite extern_run, H4. simpl. rewrite O4. simpl.
  rewrite extern_run. simpl. rewrite H6. simpl. rewrite O6. simpl.
  rewrite extern_run. simpl.
  now destruct (fst (gethostbyname host t _)).
Qed.

(** An exception of a literal parser that is not an [OSError] is not
    handled: it leaves [_resolve_target]. *)
Lemma resolve_escape t s e :
  fst (inet_aton host t (world s)) = Raise e ->
  isinstance_OSError e = false ->
  fst (_resolve_target host t s) = Raise e.
Proof.
  intros H O. unfold _resolve_target, literal_attempt, bind, try_except, ret.
  rewrite extern_run, H. simpl. rewrite O. reflexivity.
Qed.

End ResolverCases.

(** C8.  The code does not do what the claim says for a string with an
    embedded NUL character: [inet_aton] refuses it with [ValueError], the
    handler takes [OSError] only, and the exception leaves
    [_resolve_target] after one library call. *)
Theorem resolve_target_lets_ValueError_escape :
  _resolve_target (Lab.lab true Lab.wire_up Lab.http_down)
    Lab.nul_target Lab.s0
  = (Raise (Exception "ValueError" "embedded null character"),
     mkState tt [call_inet_aton Lab.nul_target] [] []).
Proof. vm_compute. reflexivity. Qed.

(** C1.  The code does not do what the claim says for a string with an
    embedded NUL character: the resolver is called outside the [try] of
    [scapy_ping_once], so the [ValueError] it lets through leaves
    [scapy_ping_once] as well, and no status is returned. *)
Theorem scapy_ping_once_lets_ValueError_escape :
  scapy_ping_once (Lab.lab true Lab.wire_up Lab.http_down)
    Lab.nul_target ping_timeout Lab.s0
  = (Raise (Exception "ValueError" "embedded null character"),
     mkState tt [call_inet_aton Lab.nul_target] [Lab.nul_target] []).
Proof. vm_compute. reflexivity. Qed.

(** The rest of C1 holds on the laboratory host: a process that may not
    open raw sockets gets [NO_PERM]. *)
Example ping_without_privilege :
  fst (scapy_ping_once (Lab.lab true Lab.wire_denied Lab.http_down)
         "8.8.8.8" ping_timeout Lab.s0) = Ret NO_PERM.
Proof. vm_compute. reflexivity. Qed.

(* ------------------------------------------------------------------ *)
(** ** The public address *)

Section PublicAddress.

Context {W : Type} (host : Host W).

(** One turn of the loop of [get_public_ip]. *)
Definition guarded_query (url kind : string) (timeout : Q) : M W (option string) :=
  try_except (query_endpoint host url kind timeout) any_Exception (fun _ => ret None).

(** The first endpoint that gives a value ends the loop: the endpoints
    after it are not asked. *)
Lemma for_endpoints_stops_at_success url kind rest timeout s v s1 :
  guarded_query url kind timeout s = (Ret (Some v), s1) ->
  for_endpoints host ((url, kind) :: rest) timeout s = (Ret (Some v), s1).
Proof.
  intros E. simpl. fold (guarded_query url kind timeout).
  now rewrite (bind_run _ _ _ _ _ E).
Qed.

(** An endpoint that gives nothing hands over to the next. *)
Lemma for_endpoints_goes_on url kind rest timeout s s1 :
  guarded_query url kind timeout s = (Ret None, s1) ->
  for_endpoints host ((url, kind) :: rest) timeout s
  = for_endpoints host rest timeout s1.
Proof.
  intros E. simpl. fold (guarded_query url kind timeout).
  now rewrite (bind_run _ _ _ _ _ E).
Qed.

(** A request that raises, a bad status, a body that does not decode, a
    JSON value without a true [ip]: each gives nothing. *)
Lemma guarded_query_failure url kind timeout s :
  match fst (requests_get host url timeout (world s)) with
  | Raise _ => True
  | Ret r =>
      returns (raise_for_status r) = false \/
      (kind = "json" /\
       match json r with
       | Raise _ => True
       | Ret data =>
           match json_get data "ip" with
           | Raise _ => True
           | Ret ip => truthy ip = false \/ returns (json_strip ip) = false
           end
       end)
  end ->
  fst (guarded_query url kind timeout s) = Ret None.
Proof.
  unfold guarded_query, try_except, query_endpoint, bind, lift, ret.
  rewrite extern_run.
  destruct (fst (requests_get host url timeout (world s))) as [r|e]; simpl;
    [| reflexivity].
  destruct (raise_for_status r); simpl; [| reflexivity].
  intros [H | [-> H]]; [discriminate |]. simpl.
  destruct (json r) as [data|]; simpl; [| reflexivity].
  destruct (json_get data "ip") as [ip|]; simpl; [| reflexivity].
  destruct (truthy ip); simpl.
  - destruct H as [H | H]; [discriminate |].
    destruct (json_strip ip); [discriminate | reflexivity].
  - reflexivity.
Qed.

(** Without [requests] nothing is asked and the answer is none. *)
Lemma get_public_ip_unavailable timeout s :
  REQUESTS_AVAILABLE host = false ->
  get_public_ip host timeout s = (Ret None, s).
Proof. intros H. unfold get_public_ip. now rewrite H. Qed.

End PublicAddress.

(** The first service down, the second up: the third is never asked. *)
Example public_ip_second_endpoint :
  get_public_ip (Lab.lab true Lab.wire_up Lab.http_second) http_timeout Lab.s0
  = (Ret (Some "203.0.113.7"),
     mkState tt [ call_requests_get "https://api.ipify.org?format=json" http_timeout;
                  call_requests_get "https://api64.ipify.org?format=json" http_timeout ]
       [] []).
Proof. vm_compute. reflexivity. Qed.

(** C4.  The code does not do what the claim says when the plain-text
    endpoint answers with an empty body: the JSON branch tests the value
    before returning it, the text branch does not, so with the first two
    endpoints down [get_public_ip] returns the empty string, not none. *)
Theorem get_public_ip_returns_empty_text :
  get_public_ip (Lab.lab true Lab.wire_up Lab.http_empty_text) http_timeout Lab.s0
  = (Ret (Some ""),
     mkState tt [ call_requests_get "https://api.ipify.org?format=json" http_timeout;
                  call_requests_get "https://api64.ipify.org?format=json" http_timeout;
                  call_requests_get "https://ifconfig.me/ip" http_timeout ]
       [] []).
Proof. vm_compute. reflexivity. Qed.

(* ------------------------------------------------------------------ *)
(** * Further properties of the code *)

(** ** White space *)

Lemma rstrip_idempotent s : rstrip (rstrip s) = rstrip s.
Proof.
  induction s as [|c rest IH]; [reflexivity |]. simpl.
  destruct (rstrip rest) as [|c' r] eqn:E.
  - destruct (isspace c) eqn:Hc; simpl; [reflexivity |]. now rewrite Hc.
  - simpl in *. rewrite IH. reflexivity.
Qed.

(** A string that does not begin with white space keeps its first
    character under [rstrip]. *)
Lemma lstrip_rstrip c rest :
  isspace c = false -> lstrip (rstrip (String c rest)) = rstrip (String c rest).
Proof.
  intros Hc. simpl. destruct (rstrip rest); rewrite ?Hc; simpl; now rewrite Hc.
Qed.

Lemma lstrip_head s :
  lstrip s = EmptyString \/ exists c rest, lstrip s = String c rest /\ isspace c = false.
Proof.
  induction s as [|c rest IH]; [now left |]. simpl.
  destruct (isspace c) eqn:Hc; [exact IH |]. right. eauto.
Qed.

(** The first and the last character of a string. *)
Definition first_char (s : string) : option ascii :=
  match s with
  | EmptyString => None
  | String c _ => Some c
  end.

Fixpoint last_char (s : string) : option ascii :=
  match s with
  | EmptyString => None
  | String c EmptyString => Some c
  | String _ rest => last_char rest
  end.

(** A string with no white space at either end. *)
Definition trimmed (v : string) : Prop :=
  (forall c, first_char v = Some c -> isspace c = false) /\
  (forall c, last_char v = Some c -> isspace c = false).

Lemma rstrip_last s c : last_char (rstrip s) = Some c -> isspace c = false.
Proof.
  induction s as [|a rest IH]; simpl; [discriminate |].
  destruct (rstrip rest) as [|b r] eqn:E.
  - destruct (isspace a) eqn:Ha; simpl; [discriminate |].
    intros H. inversion H. now subst c.
  - exact IH.
Qed.

Lemma rstrip_first a rest :
  isspace a = false -> first_char (rstrip (String a rest)) = Some a.
Proof. intros Ha. simpl. destruct (rstrip rest); rewrite ?Ha; reflexivity. Qed.

Lemma strip_trimmed s : trimmed (strip s).
Proof.
  unfold strip. split; [| apply rstrip_last].
  destruct (lstrip_head s) as [E | [a [rest [E Ha]]]]; rewrite E.
  - discriminate.
  - rewrite (rstrip_first a rest Ha). intros c H. inversion H. now subst c.
Qed.

Lemma strip_idempotent s : strip (strip s) = strip s.
Proof.
  unfold strip. destruct (lstrip_head s) as [E | [c [rest [E Hc]]]]; rewrite E.
  - reflexivity.
  - rewrite (lstrip_rstrip c rest Hc). apply rstrip_idempotent.
Qed.

(* ------------------------------------------------------------------ *)
(** ** Discovery, lookup by lookup *)

(** What one endpoint's answer amounts to.  It fails when the request
    raises, when the status is 4xx or 5xx, and, for a JSON endpoint, when
    the body does not decode, when the decoded value is no object, when its
    [ip] is missing or false (null, empty, zero), or when its [ip] is no
    string. *)
Inductive endpoint_fails (kind : string) : result Response -> Prop :=
| fails_request e :
    endpoint_fails kind (Raise e)
| fails_status r :
    returns (raise_for_status r) = false ->
    endpoint_fails kind (Ret r)
| fails_decode r e :
    returns (raise_for_status r) = true ->
    kind = "json" -> json r = Raise e ->
    endpoint_fails kind (Ret r)
| fails_no_object r data e :
    returns (raise_for_status r) = true ->
    kind = "json" -> json r = Ret data -> json_get data "ip" = Raise e ->
    endpoint_fails kind (Ret r)
| fails_no_ip r data ip :
    returns (raise_for_status r) = true ->
    kind = "json" -> json r = Ret data -> json_get data "ip" = Ret ip ->
    truthy ip = false ->
    endpoint_fails kind (Ret r)
| fails_no_string r data ip e :
    returns (raise_for_status r) = true ->
    kind = "json" -> json r = Ret data -> json_get data "ip" = Ret ip ->
    truthy ip = true -> json_strip ip = Raise e ->
    endpoint_fails kind (Ret r).

(** It gives a value when the status is good and, for a JSON endpoint, the
    body decodes to an object whose [ip] is a non-empty string: the value is
    that string, stripped; for any other endpoint the value is the body,
    stripped, whatever it is. *)
Inductive endpoint_gives (kind : string) : result Response -> string -> Prop :=
| gives_json r data v :
    returns (raise_for_status r) = true ->
    kind = "json" -> json r = Ret data -> json_get data "ip" = Ret (JStr v) ->
    v <> EmptyString ->
    endpoint_gives kind (Ret r) (strip v)
| gives_text r :
    returns (raise_for_status r) = true ->
    kind <> "json" ->
    endpoint_gives kind (Ret r) (strip (text r)).

Definition endpoint_requests (eps : list (string * string)) (timeout : Q) : list Call :=
  map (fun ep => call_requests_get (fst ep) timeout) eps.

Section DiscoveryProperties.

Context {W : Type} (host : Host W).

(** An answer either fails or gives a value: there is no third way. *)
Lemma endpoint_fails_or_gives kind res :
  endpoint_fails kind res \/ exists v, endpoint_gives kind res v.
Proof.
  destruct res as [r|e]; [| left; constructor].
  destruct (returns (raise_for_status r)) eqn:Hs; [| left; now constructor].
  destruct (String.eqb_spec kind "json") as [Hk | Hk].
  2:{ right. eexists. now apply gives_text. }
  destruct (json r) as [data|e] eqn:Hj; [| left; eapply fails_decode; eauto].
  destruct (json_get data "ip") as [ip|e] eqn:Hg;
    [| left; eapply fails_no_object; eauto].
  destruct (truthy ip) eqn:Ht; [| left; eapply fails_no_ip; eauto].
  destruct (json_strip ip) as [v|e] eqn:Hv;
    [| left; eapply fails_no_string; eauto].
  right. destruct ip; try discriminate. simpl in Hv. inversion Hv; subst v.
  eexists. eapply gives_json; eauto. intros ->. discriminate.
Qed.

(** What one guarded turn of the loop does, from the endpoint's answer. *)
Lemma guarded_query_run url kind timeout s :
  guarded_query host url kind timeout s
  = (match fst (requests_get host url timeout (world s)) with
     | Raise _ => Ret None
     | Ret r =>
         match raise_for_status r with
         | Raise _ => Ret None
         | Ret _ =>
             if String.eqb kind "json" then
               match json r with
               | Raise _ => Ret None
               | Ret data =>
                   match json_get data "ip" with
                   | Raise _ => Ret None
                   | Ret ip =>
                       if truthy ip then
                         match json_strip ip with
                         | Ret v => Ret (Some v)
                         | Raise _ => Ret None
                         end
                       else Ret None
                   end
               end
             else Ret (Some (strip (text r)))
         end
     end,
     called (call_requests_get url timeout)
       (snd (requests_get host url timeout (world s))) s).
Proof.
  unfold guarded_query, try_except, query_endpoint, bind, lift, ret, called.
  rewrite extern_run.
  destruct (fst (requests_get host url timeout (world s))) as [r|e]; simpl;
    [| reflexivity].
  destruct (raise_for_status r); simpl; [| reflexivity].
  destruct (kind =? "json")%string; [| reflexivity].
  destruct (json r) as [data|]; simpl; [| reflexivity].
  destruct (json_get data "ip") as [ip|]; simpl; [| reflexivity].
  destruct (truthy ip); [| reflexivity].
  destruct (json_strip ip); reflexivity.
Qed.

Lemma guarded_query_fails url kind timeout s :
  endpoint_fails kind (fst (requests_get host url timeout (world s))) ->
  fst (guarded_query host url kind timeout s) = Ret None.
Proof.
  intros F. rewrite guarded_query_run. simpl.
  inversion F as [e He | r Hs He | r e Hs Hk Hj He | r data e Hs Hk Hj Hg He
                 | r data ip Hs Hk Hj Hg Ht He | r data ip e Hs Hk Hj Hg Ht Hv He];
    try reflexivity;
    destruct (raise_for_status r); try discriminate; try reflexivity;
    subst kind; simpl; rewrite Hj; try reflexivity;
    rewrite Hg; try reflexivity; rewrite Ht; try reflexivity;
    rewrite Hv; reflexivity.
Qed.

Lemma guarded_query_gives url kind timeout s v :
  endpoint_gives kind (fst (requests_get host url timeout (world s))) v ->
  fst (guarded_query host url kind timeout s) = Ret (Some v).
Proof.
  intros G. rewrite guarded_query_run. simpl.
  inversion G as [r data v0 Hs Hk Hj Hg Hv He | r Hs Hk He];
    destruct (raise_for_status r); try discriminate.
  - subst kind. simpl. rewrite Hj, Hg. simpl.
    destruct v0; [congruence | reflexivity].
  - destruct (String.eqb_spec kind "json"); [contradiction | reflexivity].
Qed.

(** The next theorem, in the form the lemmas below use. *)
Lemma failed_endpoint_hands_over_aux url kind rest timeout s :
  endpoint_fails kind (fst (requests_get host url timeout (world s))) ->
  for_endpoints host ((url, kind) :: rest) timeout s
  = for_endpoints host rest timeout
      (called (call_requests_get url timeout)
         (snd (requests_get host url timeout (world s))) s).
Proof.
  intros F. apply for_endpoints_goes_on.
  pose proof (guarded_query_fails url kind timeout s F) as E.
  rewrite guarded_query_run in *. simpl in E. now rewrite E.
Qed.

(** X1.  In the loop over the endpoints, an endpoint whose answer fails
    (request raised, bad status, body that does not decode or is no object,
    [ip] missing, empty or no string) costs one request and hands over to
    the next endpoint; no exception comes out of it. *)
Theorem failed_endpoint_hands_over url kind rest timeout s :
  endpoint_fails kind (fst (requests_get host url timeout (world s))) ->
  for_endpoints host ((url, kind) :: rest) timeout s
  = for_endpoints host rest timeout
      (called (call_requests_get url timeout)
         (snd (requests_get host url timeout (world s))) s).
Proof. exact (failed_endpoint_hands_over_aux url kind rest timeout s). Qed.

(** The next theorem, in the form the lemmas below use. *)
Lemma good_endpoint_ends_the_loop_aux url kind rest timeout s v :
  endpoint_gives kind (fst (requests_get host url timeout (world s))) v ->
  for_endpoints host ((url, kind) :: rest) timeout s
  = (Ret (Some v),
     called (call_requests_get url timeout)
       (snd (requests_get host url timeout (world s))) s).
Proof.
  intros G. apply for_endpoints_stops_at_success.
  pose proof (guarded_query_gives url kind timeout s v G) as E.
  rewrite guarded_query_run in *. simpl in E. now rewrite E.
Qed.

(** X2.  An endpoint whose answer gives a value ends the loop with this
    value after its one request: the endpoints after it are not asked. *)
Theorem good_endpoint_ends_the_loop url kind rest timeout s v :
  endpoint_gives kind (fst (requests_get host url timeout (world s))) v ->
  for_endpoints host ((url, kind) :: rest) timeout s
  = (Ret (Some v),
     called (call_requests_get url timeout)
       (snd (requests_get host url timeout (world s))) s).
Proof. exact (good_endpoint_ends_the_loop_aux url kind rest timeout s v). Qed.

End DiscoveryProperties.

Section PublicAddressProperties.

Context {W : Type} (host : Host W).

Lemma endpoint_gives_stripped kind res v : endpoint_gives kind res v -> strip v = v.
Proof. intros G. inversion G; subst; apply strip_idempotent. Qed.

Lemma for_endpoints_requests eps timeout s :
  exists r n s',
    for_endpoints host eps timeout s = (Ret r, s') /\
    (n <= length eps)%nat /\
    calls s' = calls s ++ endpoint_requests (firstn n eps) timeout /\
    probes s' = probes s /\ stdout s' = stdout s /\
    (r = None -> n = length eps) /\
    (forall v, r = Some v -> (1 <= n)%nat /\ strip v = v).
Proof.
  revert s. induction eps as [|[url kind] rest IH]; intros s.
  - exists None, 0%nat, s. simpl. unfold ret. rewrite app_nil_r.
    repeat split; try reflexivity; try lia; discriminate.
  - destruct (endpoint_fails_or_gives kind
                (fst (requests_get host url timeout (world s)))) as [F | [v G]].
    + rewrite (failed_endpoint_hands_over_aux host url kind rest timeout s F).
      set (s1 := called _ _ s).
      destruct (IH s1) as [r [n [s' [E [Hn [C [P [O [Hnone Hsome]]]]]]]]].
      exists r, (S n), s'. split; [exact E |]. simpl.
      split; [lia |]. split; [rewrite C; simpl; now rewrite <- app_assoc |].
      split; [exact P |]. split; [exact O |]. split.
      * intros Hr. now rewrite (Hnone Hr).
      * intros v Hv. destruct (Hsome v Hv). split; [lia | assumption].
    + rewrite (good_endpoint_ends_the_loop_aux host url kind rest timeout s v G).
      exists (Some v), 1%nat. eexists. split; [reflexivity |]. simpl.
      split; [lia |]. split; [reflexivity |]. split; [reflexivity |].
      split; [reflexivity |]. split; [discriminate |].
      intros v' Hv'. inversion Hv'; subst v'. split; [lia |].
      eapply endpoint_gives_stripped; eauto.
Qed.

(** The next theorem, in the form the lemmas below use. *)
Lemma get_public_ip_requests_aux timeout s :
  exists r n s',
    get_public_ip host timeout s = (Ret r, s') /\
    (n <= 3)%nat /\
    calls s' = calls s ++ endpoint_requests (firstn n endpoints) timeout /\
    probes s' = probes s /\ stdout s' = stdout s /\
    (REQUESTS_AVAILABLE host = false -> r = None /\ n = 0%nat) /\
    (REQUESTS_AVAILABLE host = true -> r = None -> n = 3%nat) /\
    (forall v, r = Some v -> (1 <= n)%nat).
Proof.
  unfold get_public_ip. destruct (REQUESTS_AVAILABLE host); cbn [negb].
  - destruct (for_endpoints_requests endpoints timeout s)
      as [r [n [s' [E [Hn [C [P [O [Hnone Hsome]]]]]]]]].
    exists r, n, s'. split; [exact E |]. split; [exact Hn |].
    split; [exact C |]. split; [exact P |]. split; [exact O |].
    split; [discriminate |]. split; [intros _ Hr; exact (Hnone Hr) |].
    intros v Hv. exact (proj1 (Hsome v Hv)).
  - exists None, 0%nat, s. unfold ret. simpl. rewrite app_nil_r.
    repeat split; try reflexivity; try lia; discriminate.
Qed.

(** X3.  [get_public_ip] never raises and touches nothing but the HTTP
    client: the requests it makes are the first [n] of the three endpoints,
    in their fixed order, each asked once with the timeout given.  Without
    [requests] it asks nobody; when it ends with no value although
    [requests] is there, all three were asked; when it ends with a value, at
    least one was. *)
Theorem get_public_ip_requests timeout s :
  exists r n s',
    get_public_ip host timeout s = (Ret r, s') /\
    (n <= 3)%nat /\
    calls s' = calls s ++ endpoint_requests (firstn n endpoints) timeout /\
    probes s' = probes s /\ stdout s' = stdout s /\
    (REQUESTS_AVAILABLE host = false -> r = None /\ n = 0%nat) /\
    (REQUESTS_AVAILABLE host = true -> r = None -> n = 3%nat) /\
    (forall v, r = Some v -> (1 <= n)%nat).
Proof. exact (get_public_ip_requests_aux timeout s). Qed.

(** X4.  An address [get_public_ip] returns neither begins nor ends with a
    white-space character (it may be empty). *)
Theorem get_public_ip_is_stripped timeout s v :
  fst (get_public_ip host timeout s) = Ret (Some v) -> trimmed v.
Proof.
  unfold get_public_ip. destruct (REQUESTS_AVAILABLE host); cbn [negb].
  - destruct (for_endpoints_requests endpoints timeout s)
      as [r [n [s' [E [_ [_ [_ [_ [_ Hsome]]]]]]]]].
    rewrite E. simpl. intros H. inversion H; subst r.
    rewrite <- (proj2 (Hsome v eq_refl)). apply strip_trimmed.
  - discriminate.
Qed.

(** [get_local_ip] never raises: it asks the socket once, answers the
    address the socket reports, and none when any step of the socket work
    raises. *)
Lemma get_local_ip_never_raises ip port s :
  get_local_ip host ip port s
  = (Ret (match fst (udp_sockname host ip port (world s)) with
          | Ret a => Some a
          | Raise _ => None
          end),
     called (call_udp_sockname ip port)
       (snd (udp_sockname host ip port (world s))) s).
Proof.
  unfold get_local_ip, try_except, bind, ret, called. rewrite extern_run.
  now destruct (fst (udp_sockname host ip port (world s))).
Qed.

(** [get_dns_servers] never raises.  Without dnspython it answers the
    empty list and asks nobody; with it, it asks the resolver configuration
    once and answers its list as it is, or the empty list when that
    raises. *)
Lemma get_dns_servers_never_raises s :
  exists l s',
    get_dns_servers host s = (Ret l, s') /\
    probes s' = probes s /\ stdout s' = stdout s /\
    (DNSPYTHON_AVAILABLE host = false -> l = [] /\ s' = s) /\
    (DNSPYTHON_AVAILABLE host = true ->
     calls s' = calls s ++ [call_nameservers] /\
     world s' = snd (nameservers host (world s)) /\
     l = match fst (nameservers host (world s)) with
         | Ret ns => ns
         | Raise _ => []
         end).
Proof.
  exists (discovered_dns host (world s)), (after_dns host s).
  split; [apply get_dns_servers_run |].
  unfold discovered_dns, after_dns.
  destruct (DNSPYTHON_AVAILABLE host); simpl; repeat split; try discriminate;
    reflexivity.
Qed.

End PublicAddressProperties.

(** X4 at work: the second endpoint answers. *)
Lemma get_public_ip_is_stripped_witness :
  fst (get_public_ip (Lab.lab true Lab.wire_up Lab.http_second) http_timeout Lab.s0)
  = Ret (Some "203.0.113.7") /\
  trimmed "203.0.113.7".
Proof.
  assert (H : fst (get_public_ip (Lab.lab true Lab.wire_up Lab.http_second)
                     http_timeout Lab.s0) = Ret (Some "203.0.113.7"))
    by (vm_compute; reflexivity).
  split; [exact H |].
  apply (get_public_ip_is_stripped (Lab.lab true Lab.wire_up Lab.http_second)
           http_timeout Lab.s0 "203.0.113.7" H).
Defined.

(** X1 at work: the first endpoint is down, the loop goes on with the
    second. *)
Lemma failed_endpoint_witness :
  endpoint_fails "json"
    (fst (requests_get (Lab.lab true Lab.wire_up Lab.http_second)
            "https://api.ipify.org?format=json" http_timeout (world Lab.s0))) /\
  for_endpoints (Lab.lab true Lab.wire_up Lab.http_second)
    (("https://api.ipify.org?format=json", "json") :: tl endpoints) http_timeout Lab.s0
  = for_endpoints (Lab.lab true Lab.wire_up Lab.http_second) (tl endpoints) http_timeout
      (called (call_requests_get "https://api.ipify.org?format=json" http_timeout)
         (snd (requests_get (Lab.lab true Lab.wire_up Lab.http_second)
                 "https://api.ipify.org?format=json" http_timeout (world Lab.s0)))
         Lab.s0).
Proof.
  assert (F : endpoint_fails "json"
                (fst (requests_get (Lab.lab true Lab.wire_up Lab.http_second)
                        "https://api.ipify.org?format=json" http_timeout
                        (world Lab.s0))))
    by (simpl; constructor).
  split; [exact F |].
  apply (failed_endpoint_hands_over (Lab.lab true Lab.wire_up Lab.http_second)
           "https://api.ipify.org?format=json" "json" (tl endpoints) http_timeout
           Lab.s0 F).
Defined.

(** X2 at work: the second endpoint answers, the third is not asked. *)
Lemma good_endpoint_witness :
  endpoint_gives "json"
    (fst (requests_get (Lab.lab true Lab.wire_up Lab.http_second)
            "https://api64.ipify.org?format=json" http_timeout (world Lab.s0)))
    (strip "203.0.113.7") /\
  for_endpoints (Lab.lab true Lab.wire_up Lab.http_second)
    (("https://api64.ipify.org?format=json", "json") :: [("https://ifconfig.me/ip", "text")])
    http_timeout Lab.s0
  = (Ret (Some (strip "203.0.113.7")),
     called (call_requests_get "https://api64.ipify.org?format=json" http_timeout)
       (snd (requests_get (Lab.lab true Lab.wire_up Lab.http_second)
               "https://api64.ipify.org?format=json" http_timeout (world Lab.s0)))
       Lab.s0).
Proof.
  assert (G : endpoint_gives "json"
                (fst (requests_get (Lab.lab true Lab.wire_up Lab.http_second)
                        "https://api64.ipify.org?format=json" http_timeout
                        (world Lab.s0)))
                (strip "203.0.113.7")).
  { simpl. unfold Lab.http_second. simpl.
    eapply gives_json; try reflexivity. discriminate. }
  split; [exact G |].
  apply (good_endpoint_ends_the_loop (Lab.lab true Lab.wire_up Lab.http_second)
           "https://api64.ipify.org?format=json" "json"
           [("https://ifconfig.me/ip", "text")] http_timeout Lab.s0 _ G).
Defined.

Section SnapshotProperties.

Context {W : Type} (host : Host W).

(** [print_network_info], with the console taken to work: it makes its
    lookups in order, then prints a blank line and one line each for the
    local address, the DNS servers and the public address; a missing
    dnspython or a missing [requests] is named in its line. *)
Lemma snapshot_lookups_and_lines_aux s :
  exists n l d p s',
    print_network_info host s = (Ret tt, s') /\
    calls s' = calls s
               ++ [call_udp_sockname "8.8.8.8" 80]
               ++ (if DNSPYTHON_AVAILABLE host then [call_nameservers] else [])
               ++ endpoint_requests (firstn n endpoints) http_timeout /\
    probes s' = probes s /\
    stdout s' = stdout s ++ [""; l; d; p] /\
    (DNSPYTHON_AVAILABLE host = false ->
     d = "DNS Server(s): <dnspython not installed>") /\
    (REQUESTS_AVAILABLE host = false ->
     n = 0%nat /\ p = "Public IP Address: <requests not installed>").
Proof.
  unfold print_network_info.
  rewrite (bind_run _ _ _ _ _ (get_local_ip_never_raises host "8.8.8.8" 80 s)).
  set (lo := match fst (udp_sockname host "8.8.8.8" 80 (world s)) with
             | Ret a => Some a | Raise _ => None end).
  set (s1 := called _ _ s).
  rewrite (bind_run _ _ _ _ _ (get_dns_servers_run host s1)).
  destruct (get_public_ip_requests_aux host http_timeout (after_dns host s1))
    as [pu [n [s3 [E3 [_ [C3 [P3 [O3 [Hoff _]]]]]]]]].
  rewrite (bind_run _ _ _ _ _ E3), (bind_run _ _ _ _ _ (print_run _ _)).
  set (k1 := match truthy_opt lo with Some ip => _ | None => _ end).
  set (k2 := match discovered_dns host (world s1) with [] => _ | _ :: _ => _ end).
  set (k3 := match truthy_opt pu with Some ip => _ | None => _ end).
  assert (H1 : exists l, k1 = print l)
    by (subst k1; destruct (truthy_opt lo); eauto).
  assert (H2 : exists d, k2 = print d /\
                         (DNSPYTHON_AVAILABLE host = false ->
                          d = "DNS Server(s): <dnspython not installed>")).
  { subst k2. unfold discovered_dns.
    destruct (DNSPYTHON_AVAILABLE host); cbn [negb].
    - destruct (fst (nameservers host (world s1))) as [[|x xs]|e];
        eexists; (split; [reflexivity | intros Hx; discriminate Hx]).
    - eexists; split; reflexivity. }
  assert (H3 : exists p, k3 = print p /\
                         (REQUESTS_AVAILABLE host = false ->
                          n = 0%nat /\ p = "Public IP Address: <requests not installed>")).
  { subst k3. destruct (REQUESTS_AVAILABLE host) eqn:Hr.
    - destruct (truthy_opt pu); eexists;
        (split; [reflexivity | intros Hx; discriminate Hx]).
    - destruct (Hoff eq_refl) as [-> ->]. simpl. eexists. split; [reflexivity |].
      intros _. split; reflexivity. }
  destruct H1 as [l ->], H2 as [d [-> Hd]], H3 as [p [-> Hp]].
  exists n, l, d, p. eexists.
  rewrite (bind_run _ _ _ _ _ (print_run _ _)), (bind_run _ _ _ _ _ (print_run _ _)).
  rewrite print_run. split; [reflexivity |]. simpl.
  split.
  { rewrite C3. unfold after_dns, s1, called.
    destruct (DNSPYTHON_AVAILABLE host); simpl; rewrite <- !app_assoc; reflexivity. }
  split.
  { rewrite P3. unfold after_dns, s1, called.
    destruct (DNSPYTHON_AVAILABLE host); reflexivity. }
  split; [| split; assumption].
  rewrite O3. unfold after_dns, s1, called.
  destruct (DNSPYTHON_AVAILABLE host); simpl; rewrite <- !app_assoc; reflexivity.
Qed.


End SnapshotProperties.

(* ------------------------------------------------------------------ *)
(** ** The resolver and the probe, call by call *)

(** The six status strings are pairwise different: the token printed
    tells the status, so [ERROR] is never printed like [FAILED]. *)
Lemma status_str_injective st1 st2 :
  status_str st1 = status_str st2 -> st1 = st2.
Proof. destruct st1, st2; simpl; intros H; solve [reflexivity | discriminate H]. Qed.

Lemma contains_colon_cons c rest :
  contains ":" (String c rest) = if ascii_dec ":" c then true else contains ":" rest.
Proof.
  cbn [contains String.prefix].
  destruct (ascii_dec ":" c); [now destruct rest | reflexivity].
Qed.

(** [_is_ipv6] holds exactly for the strings with a colon somewhere in
    them. *)
Lemma is_ipv6_iff_colon addr :
  _is_ipv6 addr = true <-> In ":"%char (list_ascii_of_string addr).
Proof.
  unfold _is_ipv6. induction addr as [|c rest IH].
  - simpl. split; [discriminate | intros []].
  - rewrite contains_colon_cons. cbn [list_ascii_of_string In].
    destruct (ascii_dec ":" c) as [E | N].
    + split; [intros _; left; now symmetry | reflexivity].
    + rewrite IH. split; [now right | intros [E | H]; [now subst c | exact H]].
Qed.

(** The outcomes that tell of an answer or of a time-out, and the outcomes
    that tell that the send step was not reached. *)
Definition after_reply (r : result Status) : bool :=
  match r with
  | Ret OK | Ret FAILED => true
  | _ => false
  end.

Definition before_send (r : result Status) : bool :=
  match r with
  | Ret NO_SCAPY | Ret RESOLVE_FAIL | Raise _ => true
  | _ => false
  end.

Section ProbeProperties.

Context {W : Type} (host : Host W).

(** The guarded send, in one equation. *)
Lemma guarded_send_run ip timeout s :
  try_except (send_echo host ip timeout) any_Exception ping_handler s
  = (match answer host ip timeout s with
     | Ret ans => reply_status ip ans
     | Raise e =>
         Ret (if isinstance_PermissionError e then NO_PERM
              else if isinstance_OSError e
                      && contains "Operation not permitted" (str_exn e)
                   then NO_PERM else ERROR)
     end,
     sent host ip timeout s).
Proof.
  unfold try_except. rewrite send_echo_run.
  destruct (answer host ip timeout s) as [ans|e].
  - destruct (reply_status_returns ip ans) as [st [E _]]. now rewrite E.
  - unfold any_Exception. apply ping_handler_run.
Qed.

Lemma resolution_is_no_send c : is_resolution c = true -> is_sr1 c = false.
Proof. now destruct c. Qed.

(** X7.  One call of [scapy_ping_once] sends at most one echo request:
    there is no retry.  [OK] and [FAILED] come after exactly one [sr1] call;
    [NO_SCAPY], [RESOLVE_FAIL] and an escaping exception come with none.
    ([NO_PERM] and [ERROR] come with one when [sr1] raised and with none
    when the packet constructors did.) *)
Theorem probe_sends_at_most_once dst timeout s :
  exists sends,
    filter is_sr1 (calls (snd (scapy_ping_once host dst timeout s)))
    = filter is_sr1 (calls s) ++ sends /\
    (length sends <= 1)%nat /\
    (after_reply (fst (scapy_ping_once host dst timeout s)) = true ->
     length sends = 1%nat) /\
    (before_send (fst (scapy_ping_once host dst timeout s)) = true ->
     sends = []).
Proof.
  destruct (SCAPY_AVAILABLE host) eqn:Hav.
  2:{ rewrite scapy_ping_once_unavailable by exact Hav. simpl.
      exists []. rewrite app_nil_r. split; [reflexivity |].
      split; [simpl; lia |]. split; [discriminate | reflexivity]. }
  destruct (_resolve_target host dst (entered dst s)) as [[[name [ip|]]|e] s1] eqn:R;
    pose proof (resolve_frame _ _ _ _ _ R) as [_ [C _]];
    pose proof (calls_ext_filter _ _ _ _ resolution_is_no_send C) as F;
    simpl in F.
  - rewrite (scapy_ping_once_resolved _ _ _ _ _ _ _ Hav R), guarded_send_run.
    cbn [fst snd]. rewrite sent_calls, filter_app, F. unfold answer.
    destruct (fst (scapy_build host (echo_request ip) (world s1))) as [[]|eb]; simpl.
    + exists [call_sr1 (echo_request ip) timeout].
      split; [reflexivity |]. split; [simpl; lia |]. split; [reflexivity |].
      destruct (fst (sr1 host _ _ _)) as [ans|e].
      * destruct (reply_status_returns ip ans) as [st [E [-> | ->]]];
          rewrite E; discriminate.
      * destruct (isinstance_PermissionError e); [discriminate |].
        destruct (isinstance_OSError e && contains _ _); discriminate.
    + exists []. split; [reflexivity |]. split; [simpl; lia |].
      split; [| reflexivity].
      destruct (isinstance_PermissionError eb); [discriminate |].
      destruct (isinstance_OSError eb && contains _ _); discriminate.
  - rewrite (scapy_ping_once_unresolved _ _ _ _ _ _ Hav R). simpl.
    exists []. rewrite app_nil_r. split; [exact F |].
      split; [simpl; lia |]. split; [discriminate | reflexivity].
  - rewrite (scapy_ping_once_raise _ _ _ _ _ _ Hav R). simpl.
    exists []. rewrite app_nil_r. split; [exact F |].
      split; [simpl; lia |]. split; [discriminate | reflexivity].
Qed.

(** X8.  When the send step raises, the status is [NO_PERM] exactly for a
    [PermissionError] and for an [OSError] whose text has "Operation not
    permitted" in it, and [ERROR] for every other exception; a failed send
    is never reported as [OK] or [FAILED]. *)
Theorem send_failure_status dst timeout s name ip s1 e :
  SCAPY_AVAILABLE host = true ->
  _resolve_target host dst (entered dst s) = (Ret (name, Some ip), s1) ->
  answer host ip timeout s1 = Raise e ->
  exists st,
    fst (scapy_ping_once host dst timeout s) = Ret st /\
    (st = NO_PERM \/ st = ERROR) /\
    (st = NO_PERM <->
     (exists m, e = PermissionError m) \/
     (exists m, e = OSError m /\ contains "Operation not permitted" m = true)).
Proof.
  intros Hav R Ha. rewrite (scapy_ping_once_resolved _ _ _ _ _ _ _ Hav R).
  rewrite guarded_send_run, Ha. cbn [fst].
  destruct e as [m | m | c m]; simpl;
    try (destruct (contains "Operation not permitted" m) eqn:Hc);
    eexists; (split; [reflexivity |]); (split; [auto |]);
    split; try discriminate; eauto;
    intros [[m' Hm] | [m' [Hm Hc']]]; try discriminate;
    inversion Hm; subst; congruence.
Qed.


End ProbeProperties.

(** X8 at work: a process that may not open raw sockets. *)
Lemma send_failure_witness :
  exists st,
    fst (scapy_ping_once (Lab.lab true Lab.wire_denied Lab.http_down)
           "8.8.8.8" ping_timeout Lab.s0) = Ret st /\
    (st = NO_PERM \/ st = ERROR) /\
    (st = NO_PERM <->
     (exists m, PermissionError "[Errno 1] Operation not permitted" = PermissionError m) \/
     (exists m, PermissionError "[Errno 1] Operation not permitted" = OSError m /\
                contains "Operation not permitted" m = true)).
Proof.
  apply (send_failure_status (Lab.lab true Lab.wire_denied Lab.http_down)
           "8.8.8.8" ping_timeout Lab.s0 "8.8.8.8" "8.8.8.8"
           (mkState tt [call_inet_aton "8.8.8.8"] ["8.8.8.8"] [])
           (PermissionError "[Errno 1] Operation not permitted"));
    reflexivity.
Defined.

(* ------------------------------------------------------------------ *)
(** ** The orchestrator, further *)

Section OrchestratorProperties.

Context {W : Type} (host : Host W).

Lemma endpoint_requests_no_nameservers eps timeout :
  filter is_nameservers (endpoint_requests eps timeout) = [].
Proof. induction eps as [|ep eps IH]; simpl; auto. Qed.

Lemma probe_is_no_nameservers c : is_probe_call c = true -> is_nameservers c = false.
Proof. now destruct c. Qed.

(** X10.  A run that prints the snapshot (with [-n], or without [-q]) looks
    the DNS list up twice when dnspython is there: once in [main], for the
    probes, and once more in [print_network_info], for the line printed.
    The servers probed are those of the first lookup. *)
Theorem snapshot_run_looks_dns_up_twice args s :
  DNSPYTHON_AVAILABLE host = true ->
  no_ping args = true \/ quiet args = false ->
  Forall (literal_safe host)
    (if no_ping args then []
     else discovered_dns host (world s) ++ [public_dns] ++ ping_or_empty args) ->
  exists s',
    main host args s = (Ret 0%Z, s') /\
    filter is_nameservers (calls s')
    = filter is_nameservers (calls s) ++ [call_nameservers; call_nameservers] /\
    probes s' = probes s
                ++ (if no_ping args then []
                    else discovered_dns host (world s) ++ [public_dns]
                         ++ ping_or_empty args).
Proof.
  intros Hdns Hmode Hsafe.
  assert (S0 : forall (s1 : State W) n,
             calls s1 = calls (after_dns host (welcomed s))
                        ++ [call_udp_sockname "8.8.8.8" 80]
                        ++ (if DNSPYTHON_AVAILABLE host then [call_nameservers] else [])
                        ++ endpoint_requests (firstn n endpoints) http_timeout ->
             filter is_nameservers (calls s1)
             = filter is_nameservers (calls s) ++ [call_nameservers; call_nameservers]).
  { intros s1 n C. rewrite C. unfold after_dns. rewrite Hdns.
    cbn [calls welcomed printed].
    rewrite !filter_app, endpoint_requests_no_nameservers. simpl.
    now rewrite <- app_assoc. }
  destruct (no_ping args) eqn:Hn.
  - destruct (main_info_only_run host args s Hn) as [l [d [p [s' [E [N [P _]]]]]]].
    destruct (snapshot_lookups_and_lines_aux host (after_dns host (welcomed s)))
      as [n [l' [d' [p' [s1 [E1 [C1 _]]]]]]].
    rewrite N in E1. inversion E1; subst s1.
    exists s'. split; [exact E |]. split; [exact (S0 _ _ C1) |].
    now rewrite app_nil_r.
  - destruct Hmode as [Hx | Hq]; [discriminate |].
    destruct (main_probing_run host args s Hn Hsafe)
      as [pre [s1 [rd [pst [ru [s' [E [K [Epp [_ [_ [P _]]]]]]]]]]]].
    rewrite Hq in K. destruct K as [N _].
    destruct (snapshot_lookups_and_lines_aux host (after_dns host (welcomed s)))
      as [n [l' [d' [p' [s1' [E1 [C1 _]]]]]]].
    rewrite N in E1. inversion E1; subst s1'.
    destruct (print_pings_spec host (ping_or_empty args)
                (discovered_dns host (world s)) s1 Hsafe)
      as [rd' [pst' [ru' [s'' [Epp' [_ [_ [_ [_ [Cpp _]]]]]]]]]].
    rewrite Epp in Epp'. inversion Epp'; subst s''.
    exists s'. split; [exact E |]. split; [| exact P].
    rewrite (calls_ext_filter _ _ _ _ probe_is_no_nameservers Cpp).
    exact (S0 _ _ C1).
Qed.

(** The loops of [print_pings] when scapy is not there. *)
Lemma ping_dns_servers_without_scapy l s :
  SCAPY_AVAILABLE host = false ->
  ping_dns_servers host l s
  = (Ret tt,
     mkState (world s) (calls s) (probes s ++ l)
       (stdout s ++ dns_lines (map (fun ns => (ns, NO_SCAPY)) l))).
Proof.
  intros Hav. revert s. induction l as [|ns l IH]; intros s; simpl.
  - unfold ret. rewrite !app_nil_r. now destruct s.
  - rewrite (bind_run _ _ _ _ _ (scapy_ping_once_unavailable host ns _ s Hav)).
    rewrite (bind_run _ _ _ _ _ (print_run _ _)), IH. simpl.
    now rewrite <- !app_assoc.
Qed.

Lemma ping_user_targets_without_scapy l s :
  SCAPY_AVAILABLE host = false ->
  Forall (literal_safe host) l ->
  exists ru s',
    ping_user_targets host l s = (Ret tt, s') /\
    map (fun x : UserResult => fst (fst x)) ru = l /\
    Forall (fun x : UserResult => snd x = NO_SCAPY) ru /\
    probes s' = probes s ++ l /\
    stdout s' = stdout s ++ user_lines ru /\
    calls_ext is_resolution s s'.
Proof.
  intros Hav. revert s. induction l as [|t l IH]; intros s Hsafe; simpl.
  - exists [], s. unfold ret. rewrite !app_nil_r. auto 10 with frames.
  - inversion Hsafe as [|? ? Ht Hl]; subst.
    destruct (resolve_total host t Ht s) as [ip [s0 R]].
    destruct (resolve_frame _ _ _ _ _ R) as [[P0 O0] [C0 _]].
    rewrite (bind_run _ _ _ _ _ R).
    rewrite (bind_run _ _ _ _ _ (scapy_ping_once_unavailable host t _ s0 Hav)).
    rewrite (bind_run _ _ _ _ _ (print_run _ _)).
    destruct (IH (printed (user_line t ip NO_SCAPY) (entered t s0)) Hl)
      as [ru [s' [E [Hm [F [P [O C]]]]]]].
    exists ((t, ip, NO_SCAPY) :: ru), s'. split; [exact E |]. simpl in *.
    split; [now rewrite Hm |]. split; [now constructor |].
    split; [now rewrite P, P0, <- app_assoc |].
    split; [now rewrite O, O0, <- app_assoc |].
    eapply calls_ext_trans; [exact C0 |].
    destruct C as [cs Hcs]. exists cs. exact Hcs.
Qed.

(** X11.  Without scapy [print_pings] still prints its whole report, with
    [NO_SCAPY] on every line, and sends nothing: the only library calls are
    the resolver calls that give the user targets their line. *)
Theorem print_pings_without_scapy user dns s :
  SCAPY_AVAILABLE host = false ->
  Forall (literal_safe host) user ->
  exists ru cs s',
    print_pings host (Some user) dns s = (Ret tt, s') /\
    map (fun x : UserResult => fst (fst x)) ru = user /\
    Forall (fun x : UserResult => snd x = NO_SCAPY) ru /\
    stdout s' = stdout s
                ++ ping_report (map (fun ns => (ns, NO_SCAPY)) dns) NO_SCAPY ru /\
    probes s' = probes s ++ dns ++ [public_dns] ++ user /\
    calls s' = calls s ++ cs /\ forallb is_resolution cs = true.
Proof.
  intros Hav Hsafe. unfold print_pings.
  rewrite (bind_run _ _ _ _ _ (print_run _ _)), (bind_run _ _ _ _ _ (print_run _ _)).
  set (s0 := printed "Pinging ..." (printed "" s)).
  assert (D : exists s1,
             (match dns with
              | [] => print "default DNS Server <none found>: SKIPPED"
              | _ :: _ => ping_dns_servers host dns
              end) s0 = (Ret tt, s1) /\
             world s1 = world s /\ calls s1 = calls s /\
             probes s1 = probes s ++ dns /\
             stdout s1 = stdout s ++ [""; "Pinging ..."]
                         ++ (match map (fun ns => (ns, NO_SCAPY)) dns with
                             | [] => ["default DNS Server <none found>: SKIPPED"]
                             | _ :: _ => dns_lines (map (fun ns => (ns, NO_SCAPY)) dns)
                             end)).
  { destruct dns as [|ns dns].
    - eexists. rewrite print_run. split; [reflexivity |]. simpl.
      rewrite app_nil_r, <- !app_assoc. auto.
    - eexists. rewrite (ping_dns_servers_without_scapy _ _ Hav).
      split; [reflexivity |]. simpl. rewrite <- !app_assoc. auto. }
  destruct D as [s1 [E1 [W1 [C1 [P1 O1]]]]].
  rewrite (bind_run _ _ _ _ _ E1).
  rewrite (bind_run _ _ _ _ _ (scapy_ping_once_unavailable host public_dns _ s1 Hav)).
  rewrite (bind_run _ _ _ _ _ (print_run _ _)).
  set (s3 := printed (public_line NO_SCAPY) (entered public_dns s1)).
  assert (U : exists ru s',
             (match user with
              | [] => ret tt
              | _ :: _ => ping_user_targets host user
              end) s3 = (Ret tt, s') /\
             map (fun x : UserResult => fst (fst x)) ru = user /\
             Forall (fun x : UserResult => snd x = NO_SCAPY) ru /\
             probes s' = probes s3 ++ user /\
             stdout s' = stdout s3 ++ user_lines ru /\
             calls_ext is_resolution s3 s').
  { destruct user as [|t user].
    - exists [], s3. unfold ret. rewrite !app_nil_r. auto 10 with frames.
    - apply ping_user_targets_without_scapy; assumption. }
  destruct U as [ru [s' [E3 [Hu [F3 [P3 [O3 [cs [C3 R3]]]]]]]]].
  exists ru, cs, s'.
  split. { destruct user; exact E3. }
  split; [exact Hu |]. split; [exact F3 |]. simpl in *.
  split; [rewrite O3, O1; unfold ping_report; rewrite <- !app_assoc; reflexivity |].
  split; [rewrite P3, P1, <- !app_assoc; reflexivity |].
  split; [rewrite C3, C1; reflexivity | exact R3].
Qed.

(** X12.  A user target that [inet_aton] accepts is printed with one
    identifier, as "target: STATUS": the address is the target itself, so
    it is not repeated. *)
Theorem literal_target_printed_once t s :
  literal_safe host t ->
  fst (inet_aton host t (world s)) = Ret tt ->
  exists st s',
    ping_user_targets host [t] s = (Ret tt, s') /\
    stdout s' = stdout s ++ [(t ++ ": " ++ status_str st)%string].
Proof.
  intros Hsafe Hlit. simpl.
  rewrite (bind_run _ _ _ _ _ (resolve_ipv4_literal host t s Hlit)).
  set (s0 := called _ _ s).
  destruct (scapy_ping_once_total host t Hsafe ping_timeout s0) as [st [s1 E]].
  destruct (scapy_ping_once_frame _ _ _ _ _ _ E) as [_ [O _]].
  rewrite (bind_run _ _ _ _ _ E), (bind_run _ _ _ _ _ (print_run _ _)).
  exists st. eexists. unfold ret. split; [reflexivity |]. simpl. rewrite O.
  unfold user_line, truthy_opt. simpl.
  destruct (truthy_str t); [| reflexivity].
  now rewrite String.eqb_refl.
Qed.

End OrchestratorProperties.

Section FrameProperties.

Context {W : Type} (host : Host W).

Lemma ping_dns_servers_frame l s :
  calls_ext is_probe_call s (snd (ping_dns_servers host l s)).
Proof.
  revert s. induction l as [|ns l IH]; intros s; simpl.
  - apply calls_ext_refl.
  - unfold bind.
    destruct (scapy_ping_once host ns ping_timeout s) as [[st|e] s1] eqn:E;
      destruct (scapy_ping_once_frame _ _ _ _ _ _ E) as [_ [_ C]]; simpl.
    + eapply calls_ext_trans; [exact C |].
      destruct (IH (printed (dns_line ns st) s1)) as [cs Hcs]. exists cs. exact Hcs.
    + exact C.
Qed.

Lemma ping_user_targets_frame l s :
  calls_ext is_probe_call s (snd (ping_user_targets host l s)).
Proof.
  revert s. induction l as [|t l IH]; intros s; simpl.
  - apply calls_ext_refl.
  - unfold bind.
    destruct (_resolve_target host t s) as [[v|e] s0] eqn:R;
      destruct (resolve_frame _ _ _ _ _ R) as [_ [C0 _]];
      assert (C0' : calls_ext is_probe_call s s0)
        by (eapply calls_ext_weaken; [| exact C0];
            intros c Hc; unfold is_probe_call; now rewrite Hc);
      simpl; [| exact C0'].
    destruct (scapy_ping_once host t ping_timeout s0) as [[st|e] s1] eqn:E;
      destruct (scapy_ping_once_frame _ _ _ _ _ _ E) as [_ [_ C]]; simpl.
    + eapply calls_ext_trans; [exact C0' |].
      eapply calls_ext_trans; [exact C |].
      destruct (IH (printed (user_line (fst v) (snd v) st) s1)) as [cs Hcs].
      exists cs. exact Hcs.
    + eapply calls_ext_trans; [exact C0' | exact C].
Qed.

(** X13.  [print_pings] makes resolver and send calls only, whether it
    returns or an exception comes out of it: it never asks for the local
    address, for the DNS list or for the public address. *)
Theorem print_pings_makes_no_discovery_call user dns s :
  filter is_discovery (calls (snd (print_pings host user dns s)))
  = filter is_discovery (calls s).
Proof.
  apply (calls_ext_filter is_probe_call); [apply probe_is_no_discovery |].
  unfold print_pings.
  rewrite (bind_run _ _ _ _ _ (print_run _ _)), (bind_run _ _ _ _ _ (print_run _ _)).
  set (s0 := printed "Pinging ..." (printed "" s)).
  change (calls_ext is_probe_call s0
            (snd (bind (match dns with
                        | [] => print "default DNS Server <none found>: SKIPPED"
                        | _ :: _ => ping_dns_servers host dns
                        end)
                    (fun _ =>
                       bind (scapy_ping_once host public_dns ping_timeout)
                         (fun status =>
                            bind (print (public_line status))
                              (fun _ => match user with
                                        | Some ((_ :: _) as ts) => ping_user_targets host ts
                                        | _ => ret tt
                                        end))) s0))).
  assert (D : calls_ext is_probe_call s0
                (snd ((match dns with
                       | [] => print "default DNS Server <none found>: SKIPPED"
                       | _ :: _ => ping_dns_servers host dns
                       end) s0))).
  { destruct dns; [apply calls_ext_same; reflexivity | apply ping_dns_servers_frame]. }
  unfold bind at 1.
  destruct ((match dns with
             | [] => print "default DNS Server <none found>: SKIPPED"
             | _ :: _ => ping_dns_servers host dns
             end) s0) as [[[]|e] s1]; simpl in D; [| exact D].
  unfold bind at 1.
  destruct (scapy_ping_once host public_dns ping_timeout s1) as [[st|e] s2] eqn:E;
    destruct (scapy_ping_once_frame _ _ _ _ _ _ E) as [_ [_ C]];
    [| eapply calls_ext_trans; [exact D | exact C]].
  rewrite (bind_run _ _ _ _ _ (print_run _ _)).
  eapply calls_ext_trans; [exact D |]. eapply calls_ext_trans; [exact C |].
  destruct user as [[|t ts]|].
  - apply calls_ext_same. reflexivity.
  - destruct (ping_user_targets_frame (t :: ts) (printed (public_line st) s2))
      as [cs Hcs]. exists cs. exact Hcs.
  - apply calls_ext_same. reflexivity.
Qed.

End FrameProperties.

(** ** A host whose resolver configuration changes *)

Module Roaming.

(** The world counts the lookups of the DNS list: the first finds
    192.0.2.53, the later ones 198.51.100.1. *)
Definition host : Host nat :=
  {| SCAPY_AVAILABLE := true;
     DNSPYTHON_AVAILABLE := true;
     REQUESTS_AVAILABLE := false;
     inet_aton := fun t w => (Ret tt, w);
     inet_pton6 := fun t w => (Ret tt, w);
     gethostbyname := fun t w => (Ret t, w);
     scapy_build := fun _ w => (Ret tt, w);
     sr1 := fun pkt _ w => (Lab.wire_up pkt, w);
     udp_sockname := fun _ _ w => (Ret "10.0.0.2", w);
     nameservers := fun w =>
       (Ret [if Nat.eqb w 0 then "192.0.2.53" else "198.51.100.1"], S w);
     requests_get := fun url _ w => (Lab.http_down url, w) |}.

(** The snapshot names the server of the second lookup, the probe goes to
    the server of the first. *)
Example printed_and_probed_servers_differ :
  stdout (snd (main host (mkArgs false false None) (mkState 0%nat [] [] [])))
  = [ ""; WELCOME;
      ""; "Local IP Address: 10.0.0.2"; "DNS Server(s): 198.51.100.1";
      "Public IP Address: <requests not installed>";
      ""; "Pinging ...";
      "default DNS Server 192.0.2.53: FAILED";
      "public DNS Server 8.8.8.8: OK" ].
Proof. vm_compute. reflexivity. Qed.

End Roaming.

(** X10 at work: a plain run on the laboratory host. *)
Lemma snapshot_run_witness :
  DNSPYTHON_AVAILABLE (Lab.lab true Lab.wire_up Lab.http_down) = true /\
  (no_ping LabRuns.plain_args = true \/ quiet LabRuns.plain_args = false) /\
  exists s',
    main (Lab.lab true Lab.wire_up Lab.http_down) LabRuns.plain_args Lab.s0
    = (Ret 0%Z, s') /\
    filter is_nameservers (calls s')
    = filter is_nameservers (calls Lab.s0) ++ [call_nameservers; call_nameservers] /\
    probes s' = probes Lab.s0 ++ ["192.0.2.53"] ++ [public_dns] ++ [].
Proof.
  split; [reflexivity |]. split; [right; reflexivity |].
  apply (snapshot_run_looks_dns_up_twice (Lab.lab true Lab.wire_up Lab.http_down)
           LabRuns.plain_args Lab.s0 eq_refl (or_intror eq_refl)).
  repeat constructor; apply Lab.lab_literal_safe; reflexivity.
Defined.

(** X11 at work: no scapy, one DNS server, one user target. *)
Lemma print_pings_without_scapy_witness :
  SCAPY_AVAILABLE (Lab.lab false Lab.wire_up Lab.http_down) = false /\
  exists ru cs s',
    print_pings (Lab.lab false Lab.wire_up Lab.http_down)
      (Some ["example.com"]) ["192.0.2.53"] Lab.s0 = (Ret tt, s') /\
    map (fun x : UserResult => fst (fst x)) ru = ["example.com"] /\
    Forall (fun x : UserResult => snd x = NO_SCAPY) ru /\
    stdout s' = stdout Lab.s0
                ++ ping_report (map (fun ns => (ns, NO_SCAPY)) ["192.0.2.53"])
                     NO_SCAPY ru /\
    probes s' = probes Lab.s0 ++ ["192.0.2.53"] ++ [public_dns] ++ ["example.com"] /\
    calls s' = calls Lab.s0 ++ cs /\ forallb is_resolution cs = true.
Proof.
  split; [reflexivity |].
  apply (print_pings_without_scapy (Lab.lab false Lab.wire_up Lab.http_down)
           ["example.com"] ["192.0.2.53"] Lab.s0 eq_refl).
  repeat constructor; apply Lab.lab_literal_safe; reflexivity.
Defined.

(** X12 at work: [-p 8.8.8.8]. *)
Lemma literal_target_witness :
  fst (inet_aton (Lab.lab true Lab.wire_up Lab.http_down) "8.8.8.8" (world Lab.s0))
  = Ret tt /\
  exists st s',
    ping_user_targets (Lab.lab true Lab.wire_up Lab.http_down) ["8.8.8.8"] Lab.s0
    = (Ret tt, s') /\
    stdout s' = stdout Lab.s0 ++ [("8.8.8.8" ++ ": " ++ status_str st)%string].
Proof.
  split; [reflexivity |].
  apply (literal_target_printed_once (Lab.lab true Lab.wire_up Lab.http_down)
           "8.8.8.8" Lab.s0).
  - apply Lab.lab_literal_safe. reflexivity.
  - reflexivity.
Defined.

Section UserLineProperties.

Context {W : Type} (host : Host W).

(** X14.  A user target that neither parser takes for a literal and that
    [gethostbyname] resolves to a non-empty address other than the target
    itself is printed with both, as "target address: STATUS". *)
Theorem resolved_name_printed_with_address t s e4 e6 ip :
  literal_safe host t ->
  fst (inet_aton host t (world s)) = Raise e4 ->
  fst (inet_pton6 host t (snd (inet_aton host t (world s)))) = Raise e6 ->
  fst (gethostbyname host t
         (snd (inet_pton6 host t (snd (inet_aton host t (world s)))))) = Ret ip ->
  ip <> EmptyString ->
  ip <> t ->
  exists st s',
    ping_user_targets host [t] s = (Ret tt, s') /\
    stdout s' = stdout s ++ [(t ++ " " ++ ip ++ ": " ++ status_str st)%string].
Proof.
  intros Hsafe H4 H6 Hg Hne Hdiff. simpl.
  destruct (resolve_total host t Hsafe s) as [ip1 [s0 R]].
  pose proof (resolve_hostname host t s e4 e6 H4
                (proj1 (Hsafe _ _) H4) H6 (proj2 (Hsafe _ _) H6)) as Rh.
  rewrite R, Hg in Rh. simpl in Rh. inversion Rh; subst ip1.
  destruct (resolve_frame _ _ _ _ _ R) as [[_ O0] _].
  destruct (scapy_ping_once_total host t Hsafe ping_timeout s0) as [st [s1 E]].
  destruct (scapy_ping_once_frame _ _ _ _ _ _ E) as [_ [O _]].
  rewrite (bind_run _ _ _ _ _ R), (bind_run _ _ _ _ _ E),
    (bind_run _ _ _ _ _ (print_run _ _)).
  exists st. eexists. unfold ret. split; [reflexivity |]. simpl.
  rewrite O, O0. unfold user_line, truthy_opt.
  destruct ip as [|c rest]; [contradiction |]. simpl truthy_str. cbv iota.
  destruct (String.eqb_spec t (String c rest)) as [Eq | Nq]; [| reflexivity].
  exfalso. apply Hdiff. now symmetry.
Qed.

End UserLineProperties.

(** X14 at work: [-p example.com]. *)
Lemma resolved_name_witness :
  exists st s',
    ping_user_targets (Lab.lab true Lab.wire_up Lab.http_down) ["example.com"] Lab.s0
    = (Ret tt, s') /\
    stdout s' = stdout Lab.s0
                ++ [("example.com" ++ " " ++ "93.184.216.34" ++ ": " ++ status_str st)%string].
Proof.
  apply (resolved_name_printed_with_address
           (Lab.lab true Lab.wire_up Lab.http_down) "example.com" Lab.s0
           (OSError "illegal IP address string passed to inet_aton")
           (OSError "illegal IP address string passed to inet_pton")
           "93.184.216.34");
    try reflexivity; try discriminate.
  apply Lab.lab_literal_safe. reflexivity.
Defined.

(* ------------------------------------------------------------------ *)
(** ** Hosts that show the two resolutions and the constructors *)

(** A name whose address changes from one lookup to the next, as with
    round-robin DNS.  The world counts the lookups of the name. *)
Module RoundRobin.

Definition host : Host nat :=
  {| SCAPY_AVAILABLE := true;
     DNSPYTHON_AVAILABLE := true;
     REQUESTS_AVAILABLE := true;
     inet_aton := fun t w =>
       (Raise (OSError "illegal IP address string passed to inet_aton"), w);
     inet_pton6 := fun t w =>
       (Raise (OSError "illegal IP address string passed to inet_pton"), w);
     gethostbyname := fun t w =>
       (Ret (if Nat.eqb w 0 then "93.184.216.34" else "93.184.216.35"), S w);
     scapy_build := fun _ w => (Ret tt, w);
     sr1 := fun pkt _ w => (Lab.wire_up pkt, w);
     udp_sockname := fun _ _ w => (Ret "10.0.0.2", w);
     nameservers := fun w => (Ret ["192.0.2.53"], w);
     requests_get := fun url _ w => (Lab.http_down url, w) |}.

Definition start : State nat := mkState 0%nat [] [] [].

End RoundRobin.

(** A host whose [inet_aton] is the C library's: it stops reading at the
    first white space, so "1.2.3.4 a:b" is taken for an IPv4 literal.  The
    string has a colon, so the IPv6 constructor is asked for it, and
    raises. *)
Module Lenient.

Definition odd_target : string := "1.2.3.4 a:b".

Definition host : Host unit :=
  {| SCAPY_AVAILABLE := true;
     DNSPYTHON_AVAILABLE := true;
     REQUESTS_AVAILABLE := true;
     inet_aton := fun t w =>
       (if (t =? odd_target)%string then Ret tt
        else Raise (OSError "illegal IP address string passed to inet_aton"), w);
     inet_pton6 := Lab.lab_inet_pton6;
     gethostbyname := Lab.lab_gethostbyname;
     scapy_build := fun pkt w =>
       (if (Lab.dst_of pkt =? odd_target)%string
        then Raise (OSError "[Errno -2] Name or service not known")
        else Ret tt, w);
     sr1 := fun pkt _ w => (Lab.wire_up pkt, w);
     udp_sockname := fun _ _ w => (Ret "10.0.0.2", w);
     nameservers := fun w => (Ret ["192.0.2.53"], w);
     requests_get := fun url _ w => (Lab.http_down url, w) |}.

(** The probe ends in [ERROR] and [sr1] is never called. *)
Example constructor_failure_sends_nothing :
  scapy_ping_once host odd_target ping_timeout Lab.s0
  = (Ret ERROR, mkState tt [call_inet_aton odd_target] [odd_target] []).
Proof. vm_compute. reflexivity. Qed.

End Lenient.

(** C5, as stated, fails, in two ways.  Without scapy a user target whose
    resolution fails is reported with [NO_SCAPY], not with [RESOLVE_FAIL].
    And the probe does not use the address the orchestrator resolved: on a
    host where the name has another address at the second lookup, the line
    shows 93.184.216.34 and the one echo request goes to 93.184.216.35. *)
Lemma user_target_counterexample :
  fst (_resolve_target (Lab.lab false Lab.wire_up Lab.http_down)
         "example.invalid" Lab.s0)
  = Ret ("example.invalid", None) /\
  stdout (snd (ping_user_targets (Lab.lab false Lab.wire_up Lab.http_down)
                 ["example.invalid"] Lab.s0))
  = ["example.invalid: NO_SCAPY"] /\
  fst (_resolve_target RoundRobin.host "example.com" RoundRobin.start)
  = Ret ("example.com", Some "93.184.216.34") /\
  stdout (snd (ping_user_targets RoundRobin.host ["example.com"] RoundRobin.start))
  = ["example.com 93.184.216.34: FAILED"] /\
  filter is_sr1
    (calls (snd (ping_user_targets RoundRobin.host ["example.com"] RoundRobin.start)))
  = [call_sr1 (echo_request "93.184.216.35") ping_timeout].
Proof. repeat split; vm_compute; reflexivity. Qed.

(** C10.  The code does not do what the claim says when a user target has
    an embedded NUL character: with an empty DNS list [print_pings] prints
    the placeholder line and the line of 8.8.8.8, then the [ValueError] of
    [inet_aton] leaves [_resolve_target] and [print_pings]; the target after
    it is neither resolved nor probed and gets no line. *)
Theorem empty_dns_run_stops_at_nul_target :
  print_pings (Lab.lab_no_dns true Lab.wire_up Lab.http_down)
    (Some [Lab.nul_target; "example.com"]) [] Lab.s0
  = (Raise (Exception "ValueError" "embedded null character"),
     mkState tt
       [ call_inet_aton "8.8.8.8";
         call_sr1 (echo_request "8.8.8.8") ping_timeout;
         call_inet_aton Lab.nul_target ]
       ["8.8.8.8"]
       [ ""; "Pinging ..."; "default DNS Server <none found>: SKIPPED";
         "public DNS Server 8.8.8.8: OK" ]).
Proof. vm_compute. reflexivity. Qed.
